(** * Jigyo-Kasetsu: the PDF to Markdown structure inference engine

    A shallow embedding of [src/pdf_to_markdown/simple_pdf_to_markdown.py]
    and the properties of its line classifier, sequence reassembler, table
    serializer and document composer.

    Conventions of the embedding:
    - a Python [str] is a list of Unicode code points ([list N]);
    - a Python [float] is an IEEE 754 binary64 number, Rocq's primitive
      [float], with the kernel's correctly rounded operations;
    - a value that may be [None] is an [option];
    - the [(kind, content)] tuples of [md_parts] keep their shape, the kind
      tags being an enumeration instead of string literals;
    - the page object of the PDF library is a record of what the program
      reads from it. *)

From Stdlib Require Import String Ascii.
From Stdlib Require Import List NArith ZArith Bool Lia Floats Uint63.
From Stdlib Require Import Permutation Sorted.
Import ListNotations.

Set Implicit Arguments.
#[local] Set Warnings "-inexact-float".

(* ===================================================================== *)
(** * Python strings *)
(* ===================================================================== *)

Module Py.

Definition char := N.
Definition str := list char.

(** An ASCII literal as a Python string. *)
Definition lit (s : string) : str :=
  map N_of_ascii (list_ascii_of_string s).
Arguments lit s%_string.

Definition char_in (cs : list char) (c : char) : bool :=
  existsb (N.eqb c) cs.

(** [str.isspace] on one code point, which is also what [\s] matches in a
    [str] pattern and what [str.strip()] removes. *)
Definition is_space (c : char) : bool :=
  ((0x9 <=? c) && (c <=? 0xD)
   || (0x1C <=? c) && (c <=? 0x20)
   || (0x2000 <=? c) && (c <=? 0x200A)
   || char_in [0x85; 0xA0; 0x1680; 0x2028; 0x2029; 0x202F; 0x205F; 0x3000] c)%N.

Fixpoint lstrip (s : str) : str :=
  match s with
  | c :: s' => if is_space c then lstrip s' else s
  | [] => []
  end.

Definition rstrip (s : str) : str := rev (lstrip (rev s)).

(** [s.strip()] *)
Definition strip (s : str) : str := rstrip (lstrip s).

(** [sep.join(parts)] *)
Fixpoint join (sep : str) (parts : list str) : str :=
  match parts with
  | [] => []
  | [p] => p
  | p :: ps => p ++ sep ++ join sep ps
  end.

(** [s.split(sep)] for a one-character separator: always at least one
    field, empty fields kept. *)
Fixpoint split (sep : char) (s : str) : list str :=
  match s with
  | [] => [[]]
  | c :: s' =>
      if N.eqb c sep then [] :: split sep s'
      else match split sep s' with
           | f :: fs => (c :: f) :: fs
           | [] => [[c]]
           end
  end.

(** [s.replace(old, new)] for one-character [old] and [new]. *)
Definition replace (old new : char) (s : str) : str :=
  map (fun c => if N.eqb c old then new else c) s.

Fixpoint starts_with (p s : str) : bool :=
  match p, s with
  | [], _ => true
  | a :: p', b :: s' => N.eqb a b && starts_with p' s'
  | _ :: _, [] => false
  end.

(** [sub in s] *)
Fixpoint contains (sub s : str) : bool :=
  starts_with sub s
  || match s with
     | [] => false
     | _ :: s' => contains sub s'
     end.

Definition digit_char (d : N) : char := (48 + d)%N.

Fixpoint of_uint (u : Decimal.uint) : str :=
  match u with
  | Decimal.Nil => []
  | Decimal.D0 u => digit_char 0 :: of_uint u
  | Decimal.D1 u => digit_char 1 :: of_uint u
  | Decimal.D2 u => digit_char 2 :: of_uint u
  | Decimal.D3 u => digit_char 3 :: of_uint u
  | Decimal.D4 u => digit_char 4 :: of_uint u
  | Decimal.D5 u => digit_char 5 :: of_uint u
  | Decimal.D6 u => digit_char 6 :: of_uint u
  | Decimal.D7 u => digit_char 7 :: of_uint u
  | Decimal.D8 u => digit_char 8 :: of_uint u
  | Decimal.D9 u => digit_char 9 :: of_uint u
  end.

(** [str(n)] for a non-negative [int]. *)
Definition of_nat (n : nat) : str := of_uint (Nat.to_uint n).

End Py.

Abbreviation str := Py.str.
Abbreviation char := Py.char.

(* ===================================================================== *)
(** * The fragment of [re] the program uses *)
(* ===================================================================== *)

(** Every pattern of [CONFIG] is an anchor [^] followed by a sequence of
    character classes, each taken once, [*] or [+].  Matching is Python's:
    greedy with backtracking, the first successful alternative wins. *)
Module Re.

Inductive item :=
| One (cls : char -> bool)          (* [...]   *)
| Star (cls : char -> bool)         (* [...]*  *)
| Plus (cls : char -> bool).        (* [...]+  *)

Definition pattern := list item.

Section Match.
Variable cls : char -> bool.
Variable rest : str -> option str.

(** [cls*] followed by [rest]: the longest run first. *)
Fixpoint star (s : str) : option str :=
  match s with
  | c :: s' =>
      if cls c then
        match star s' with
        | Some t => Some t
        | None => rest s
        end
      else rest s
  | [] => rest s
  end.
End Match.

(** The text left after a match of [p] at the start of [s]. *)
Fixpoint match_here (p : pattern) (s : str) : option str :=
  match p with
  | [] => Some s
  | One cls :: p' =>
      match s with
      | c :: s' => if cls c then match_here p' s' else None
      | [] => None
      end
  | Star cls :: p' => star cls (match_here p') s
  | Plus cls :: p' =>
      match s with
      | c :: s' => if cls c then star cls (match_here p') s' else None
      | [] => None
      end
  end.

(** [re.match(p, s)] as a truth value. *)
Definition matches (p : pattern) (s : str) : bool :=
  match match_here p s with
  | Some _ => true
  | None => false
  end.

(** [re.sub(p, '', s)] for a pattern that starts with [^] and cannot match
    the empty string: only a match at position 0 can be replaced. *)
Definition sub_empty (p : pattern) (s : str) : str :=
  match match_here p s with
  | Some t => t
  | None => s
  end.

End Re.

(* ===================================================================== *)
(** * Configuration ([CONFIG]) *)
(* ===================================================================== *)

Module Config.

Open Scope float_scope.

(** [CONFIG['heading_size_ratio']] *)
Definition h1 : float := 1.5.
Definition h2 : float := 1.3.
Definition h3 : float := 1.15.

Close Scope float_scope.
Open Scope N_scope.

(** The glyphs of the first bullet pattern, in the order of the source:
    U+2022 U+30FB U+25CF U+25CB U+25C6 U+25C7 U+25AA U+25AB U+25A0 U+25A1
    U+25BA U+25B8 U+2023 U+2043. *)
Definition bullet_glyph : char -> bool :=
  Py.char_in [0x2022; 0x30FB; 0x25CF; 0x25CB; 0x25C6; 0x25C7; 0x25AA;
              0x25AB; 0x25A0; 0x25A1; 0x25BA; 0x25B8; 0x2023; 0x2043].

(** [[-\*]] *)
Definition dash_or_star : char -> bool := Py.char_in [45; 42].

(** [[\.）\)]]: full stop, U+FF09, right parenthesis. *)
Definition numeral_closer : char -> bool := Py.char_in [46; 0xFF09; 41].

(** [[\(（]] and [[\)）]] *)
Definition paren_open : char -> bool := Py.char_in [40; 0xFF08].
Definition paren_close : char -> bool := Py.char_in [41; 0xFF09].

(** The circled numerals U+2460 .. U+2473. *)
Definition circled_numeral (c : char) : bool := (0x2460 <=? c) && (c <=? 0x2473).

(** [CONFIG['bullet_patterns']] *)
Definition bullet_patterns : list Re.pattern :=
  [ [Re.Star Py.is_space; Re.One bullet_glyph; Re.Star Py.is_space];
    [Re.Star Py.is_space; Re.One dash_or_star; Re.Plus Py.is_space] ].

Section Unicode.
(** What [\d] matches: the code points of category Nd in the Unicode
    database of the running interpreter.  The table is not part of the
    program and differs between interpreter versions, so it is a
    parameter. *)
Variable is_decimal : char -> bool.

(** [CONFIG['numbered_patterns']] *)
Definition numbered_patterns : list Re.pattern :=
  [ [Re.Star Py.is_space; Re.Plus is_decimal; Re.One numeral_closer;
     Re.Star Py.is_space];
    [Re.Star Py.is_space; Re.One paren_open; Re.Plus is_decimal;
     Re.One paren_close; Re.Star Py.is_space];
    [Re.Star Py.is_space; Re.One circled_numeral; Re.Star Py.is_space] ].
End Unicode.

(** The digits 0-9 of Basic Latin, the part of Nd every version has; used
    to run the program on ASCII examples. *)
Definition basic_latin_digit (c : char) : bool := (48 <=? c) && (c <=? 57).

End Config.

(* ===================================================================== *)
(** * Data model *)
(* ===================================================================== *)

(** A character dictionary of the PDF library; the program reads every key
    with [.get], so every key may be absent. *)
Record pdf_char := {
  c_text : option str;
  c_size : option float;
  c_top : option float;
  c_x0 : option float;
  c_fontname : option str
}.

(** The dictionaries [extract_text_with_formatting] appends to [lines]. *)
Record line_info := {
  text : str;
  font_size : option float;
  is_bold : bool
}.

(** A table as [page.extract_tables()] gives it: rows of cells, a cell a
    string or [None]. *)
Definition cell := option str.
Definition table := list (list cell).

Definition bbox : Type := float * float * float * float.

(** What the program reads from a page object. *)
Record page := {
  extract_text : str;
  chars : list pdf_char;
  extract_tables : list table;
  find_tables : list bbox
}.

Inductive part_type := Table | Heading | Paragraph | Bullet | Numbered | Bold.

Definition part_type_eqb (a b : part_type) : bool :=
  match a, b with
  | Table, Table | Heading, Heading | Paragraph, Paragraph
  | Bullet, Bullet | Numbered, Numbered | Bold, Bold => true
  | _, _ => false
  end.

(** An element of [md_parts]. *)
Abbreviation part := (part_type * str)%type.

(* ===================================================================== *)
(** * Line classifier *)
(* ===================================================================== *)

(** Truth value of a [float] or [None] in a condition. *)
Definition truthy (x : option float) : bool :=
  match x with
  | Some v => negb (PrimFloat.eqb v 0)
  | None => false
  end.

Definition get_heading_level (font_size body_size : option float) : option nat :=
  if negb (truthy body_size) || negb (truthy font_size) then None
  else
    match font_size, body_size with
    | Some f, Some b =>
        let ratio := PrimFloat.div f b in
        if PrimFloat.leb Config.h1 ratio then Some 1
        else if PrimFloat.leb Config.h2 ratio then Some 2
        else if PrimFloat.leb Config.h3 ratio then Some 3
        else None
    | _, _ => None
    end.

Definition is_bullet_list (text : str) : bool :=
  existsb (fun p => Re.matches p text) Config.bullet_patterns.

Definition clean_bullet_text (text : str) : str :=
  Py.strip (fold_left (fun t p => Re.sub_empty p t) Config.bullet_patterns text).

Section Numbered.
Variable is_decimal : char -> bool.

Definition is_numbered_list (text : str) : bool :=
  existsb (fun p => Re.matches p text) (Config.numbered_patterns is_decimal).

Definition clean_numbered_text (text : str) : str :=
  Py.strip (fold_left (fun t p => Re.sub_empty p t)
                      (Config.numbered_patterns is_decimal) text).
End Numbered.

(* ===================================================================== *)
(** * Builtins on numbers *)
(* ===================================================================== *)

Module Num.

(** [p / d] rounded to the nearest integer, ties to the even one
    ([0 <= p], [0 < d]). *)
Definition rne_div (p d : Z) : Z :=
  let q := (p / d)%Z in
  match (2 * (p mod d) ?= d)%Z with
  | Lt => q
  | Gt => (q + 1)%Z
  | Eq => if Z.even q then q else (q + 1)%Z
  end.

(** [round(x, ndigits)] on a float, [ndigits >= 0]: the decimal expansion
    of the exact value of [x] is rounded half-even at [ndigits] places, and
    the result is the float nearest to that decimal.  Integral values,
    zeros, infinities and NaN come back unchanged. *)
Definition round (x : float) (ndigits : nat) : float :=
  match Prim2SF x with
  | S754_finite s m e =>
      if (0 <=? e)%Z then x
      else
        let scale := (10 ^ Z.of_nat ndigits)%Z in
        match rne_div (Zpos m * scale) (2 ^ (- e)) with
        | Zpos n =>
            SF2Prim (SFdiv prec emax (S754_finite s n 0)
                                     (S754_finite false (Z.to_pos scale) 0))
        | _ => SF2Prim (S754_zero s)
        end
  | _ => x
  end.

(** [float(n)] for a length or a count. *)
Definition of_nat (n : nat) : float := PrimFloat.of_uint63 (Uint63.of_Z (Z.of_nat n)).

(** [sum(xs)]: left to right from 0.  (Interpreters from 3.12 on add with
    compensation, which can change the last bits.) *)
Definition sum (xs : list float) : float := fold_left PrimFloat.add xs 0%float.

(** [d.get(key, 0)] for a numeric key. *)
Definition get0 (x : option float) : float :=
  match x with
  | Some v => v
  | None => 0%float
  end.

Section Sorted.
Variable A : Type.
Variable key : A -> float.

Fixpoint insert (x : A) (l : list A) : list A :=
  match l with
  | [] => [x]
  | y :: l' =>
      if PrimFloat.ltb (key y) (key x) then y :: insert x l'
      else x :: l
  end.

(** [sorted(l, key=key)]: ascending and stable (the keys compared with
    [<] only; they are assumed not to be NaN). *)
Fixpoint sorted (l : list A) : list A :=
  match l with
  | [] => []
  | x :: l' => insert x (sorted l')
  end.
End Sorted.

(** A dictionary with float keys, in insertion order; two keys are the
    same when they compare equal. *)
Section Dict.
Variable V : Type.
Variable init : V.
Variable upd : V -> V.

(** [if k not in d: d[k] = init] and then [d[k] = upd(d[k])]. *)
Fixpoint update (k : float) (d : list (float * V)) : list (float * V) :=
  match d with
  | [] => [(k, upd init)]
  | (k', v) :: d' =>
      if PrimFloat.eqb k' k then (k', upd v) :: d'
      else (k', v) :: update k d'
  end.
End Dict.

(** [Counter(xs)] *)
Definition counter (xs : list float) : list (float * nat) :=
  fold_left (fun d x => update 0 S x d) xs [].

(** The first key, in insertion order, among those with the largest count,
    [best] being the best entry so far. *)
Fixpoint most_common_from (best : float * nat) (d : list (float * nat)) : float :=
  match d with
  | [] => fst best
  | kv :: d' => most_common_from (if snd best <? snd kv then kv else best) d'
  end.

(** [c.most_common(1)[0][0]]; the program asks for it on a non-empty counter
    only (on an empty one the index would be out of range). *)
Definition most_common1 (d : list (float * nat)) : option float :=
  match d with
  | [] => None
  | kv :: d' => Some (most_common_from kv d')
  end.

End Num.

(* ===================================================================== *)
(** * Typography sampler and line assembler *)
(* ===================================================================== *)

(** [[char.get('size', 0) for char in chars if char.get('size')]] *)
Definition sizes_of (cs : list pdf_char) : list float :=
  map (fun c => Num.get0 (c_size c)) (filter (fun c => truthy (c_size c)) cs).

(** [extract_font_sizes]: the body size of one page, or [None] when the page
    has no character or none with a size. *)
Definition extract_font_sizes (p : page) : option float :=
  match chars p with
  | [] => None
  | cs =>
      match sizes_of cs with
      | [] => None
      | sizes => Num.most_common1 (Num.counter (map (fun s => Num.round s 1) sizes))
      end
  end.

(** [c.get(key, '')] *)
Definition get_str (x : option str) : str :=
  match x with
  | Some s => s
  | None => []
  end.

(** ['Bold' in fn or 'bold' in fn] *)
Definition bold_font_name (fn : str) : bool :=
  Py.contains (Py.lit "Bold") fn || Py.contains (Py.lit "bold") fn.

(** [char_lines] after the grouping loop: the characters of each rounded
    [top], in the order the keys first occur. *)
Definition char_lines (cs : list pdf_char) : list (float * list pdf_char) :=
  fold_left
    (fun d c => Num.update [] (fun l => l ++ [c]) (Num.round (Num.get0 (c_top c)) 0) d)
    cs [].

(** The [line_chars] of every key, the keys ascending. *)
Definition line_groups (cs : list pdf_char) : list (list pdf_char) :=
  map (fun kv => Num.sorted (fun c => Num.get0 (c_x0 c)) (snd kv))
      (Num.sorted fst (char_lines cs)).

(** One round of the second loop of [extract_text_with_formatting]: the
    line built from [line_chars], or [None] where the loop [continue]s. *)
Definition assemble_line (line_chars : list pdf_char) : option line_info :=
  let line_text := Py.strip (concat (map (fun c => get_str (c_text c)) line_chars)) in
  match line_text with
  | [] => None
  | _ =>
      let line_sizes := sizes_of line_chars in
      let avg_size :=
        match line_sizes with
        | [] => None
        | _ => Some (PrimFloat.div (Num.sum line_sizes) (Num.of_nat (length line_sizes)))
        end in
      let font_names := map (fun c => get_str (c_fontname c)) line_chars in
      Some {| text := line_text;
              font_size := avg_size;
              is_bold := existsb bold_font_name font_names |}
  end.

Fixpoint filter_map {A B} (f : A -> option B) (l : list A) : list B :=
  match l with
  | [] => []
  | x :: l' =>
      match f x with
      | Some y => y :: filter_map f l'
      | None => filter_map f l'
      end
  end.

(** The plain-text lines of a page without character data. *)
Definition plain_lines (t : str) : list line_info :=
  filter_map
    (fun line =>
       match Py.strip line with
       | [] => None
       | s => Some {| text := s; font_size := None; is_bold := false |}
       end)
    (Py.split 10%N t).

(** [body_size] is a parameter of the source function that it never reads. *)
Definition extract_text_with_formatting (p : page) (body_size : option float)
  : list line_info :=
  match extract_text p with
  | [] => []
  | t =>
      match chars p with
      | [] => plain_lines t
      | cs => filter_map assemble_line (line_groups cs)
      end
  end.

(* ===================================================================== *)
(** * Table serializer *)
(* ===================================================================== *)

(** [str(cell) if cell else '']: [None] and the empty string are false. *)
Definition cell_text (c : cell) : str :=
  match c with
  | Some ((_ :: _) as s) => s
  | _ => []
  end.

(** ['| ' + ' | '.join(cells) + ' |'] *)
Definition render_row (cells : list str) : str :=
  Py.lit "| " ++ Py.join (Py.lit " | ") cells ++ Py.lit " |".

(** The cell lists the three [md_lines.append] calls join, in order. *)
Definition header_cells (header : list cell) : list str := map cell_text header.

Definition separator_cells (header : list cell) : list str :=
  repeat (Py.lit "---") (length header).

Definition data_cells (row : list cell) : list str :=
  map (Py.replace 10%N 32%N) (map cell_text row).

Definition md_rows (header : list cell) (rows : list (list cell)) : list (list str) :=
  header_cells header :: separator_cells header :: map data_cells rows.

Definition table_to_markdown (t : table) : str :=
  match t with
  | [] => []
  | [] :: _ => []
  | header :: rows => Py.join [10%N] (map render_row (md_rows header rows))
  end.

(* ===================================================================== *)
(** * Sequence reassembler ([process_page]) *)
(* ===================================================================== *)

(** The values of [current_list_type] other than [None]. *)
Inductive list_type := IsBullet | IsNumbered.

(** The variables the loop of [process_page] assigns. *)
Record state := {
  current_list_type : option list_type;
  numbered_counter : nat;
  paragraph_lines : list str;
  md_parts : list part
}.

(** [if paragraph_lines: md_parts.append(('paragraph', ' '.join(...)));
    paragraph_lines = []] *)
Definition flush (st : state) : state :=
  match paragraph_lines st with
  | [] => st
  | ls =>
      {| current_list_type := current_list_type st;
         numbered_counter := numbered_counter st;
         paragraph_lines := [];
         md_parts := md_parts st ++ [(Paragraph, Py.join (Py.lit " ") ls)] |}
  end.

Definition append_part (p : part) (lt : option list_type) (n : nat) (st : state) : state :=
  {| current_list_type := lt;
     numbered_counter := n;
     paragraph_lines := paragraph_lines st;
     md_parts := md_parts st ++ [p] |}.

Definition heading_part (level : nat) (t : str) : part :=
  (Heading, repeat 35%N level ++ Py.lit " " ++ t).

Definition bullet_part (t : str) : part :=
  (Bullet, Py.lit "- " ++ clean_bullet_text t).

Definition bold_part (t : str) : part :=
  (Bold, Py.lit "**" ++ t ++ Py.lit "**").

Definition is_numbered (lt : option list_type) : bool :=
  match lt with
  | Some IsNumbered => true
  | _ => false
  end.

Definition init_state (parts : list part) : state :=
  {| current_list_type := None;
     numbered_counter := 0;
     paragraph_lines := [];
     md_parts := parts |}.

(** The table blocks of a page: one per table whose fragment is not empty. *)
Definition table_parts (tables : list table) : list part :=
  filter_map
    (fun t =>
       match table_to_markdown t with
       | [] => None
       | md_table => Some (Table, md_table)
       end)
    tables.

(** The classification of a line. *)
Inductive line_class :=
| IsHeading (level : nat)
| BulletItem
| NumberedItem
| Emphasized
| ParagraphText.

Definition line_class_eqb (a b : line_class) : bool :=
  match a, b with
  | IsHeading m, IsHeading n => Nat.eqb m n
  | BulletItem, BulletItem | NumberedItem, NumberedItem
  | Emphasized, Emphasized | ParagraphText, ParagraphText => true
  | _, _ => false
  end.

Section Engine.
Variable is_decimal : char -> bool.

Definition numbered_part (n : nat) (t : str) : part :=
  (Numbered, Py.of_nat n ++ Py.lit ". " ++ clean_numbered_text is_decimal t).

(** One round of the loop over [lines]. *)
Definition step (body_size : option float) (st : state) (li : line_info) : state :=
  match get_heading_level (font_size li) body_size with
  | Some ((S _) as heading_level) =>
      append_part (heading_part heading_level (text li))
                  None (numbered_counter st) (flush st)
  | _ =>
      if is_bullet_list (text li) then
        append_part (bullet_part (text li))
                    (Some IsBullet) (numbered_counter st) (flush st)
      else if is_numbered_list is_decimal (text li) then
        let st := flush st in
        let counter :=
          if is_numbered (current_list_type st) then numbered_counter st else 0 in
        let counter := S counter in
        append_part (numbered_part counter (text li))
                    (Some IsNumbered) counter st
      else if is_bold li && (length (text li) <? 100) then
        append_part (bold_part (text li)) None (numbered_counter st) (flush st)
      else
        {| current_list_type := None;
           numbered_counter := numbered_counter st;
           paragraph_lines := paragraph_lines st ++ [text li];
           md_parts := md_parts st |}
  end.

(** The branch [step] takes for a line, as a value: the conditions of
    [step], in its order (heading, bullet, numbered, short bold text,
    anything else). *)
Definition classify_line (body_size : option float) (li : line_info) : line_class :=
  match get_heading_level (font_size li) body_size with
  | Some ((S _) as heading_level) => IsHeading heading_level
  | _ =>
      if is_bullet_list (text li) then BulletItem
      else if is_numbered_list is_decimal (text li) then NumberedItem
      else if is_bold li && (length (text li) <? 100) then Emphasized
      else ParagraphText
  end.

(** The loop over [lines] and the flush after it. *)
Definition run_lines (body_size : option float) (st : state) (lines : list line_info)
  : state :=
  flush (fold_left (step body_size) lines st).

(** The bounding boxes are collected when the page has tables; nothing
    reads [table_bboxes] afterwards. *)
Definition process_page (p : page) (body_size : option float) : list part :=
  let tables := extract_tables p in
  let table_bboxes :=
    match tables with
    | [] => []
    | _ => find_tables p
    end in
  let parts := table_parts tables in
  let lines := extract_text_with_formatting p body_size in
  md_parts (run_lines body_size (init_state parts) lines).

(* =================================================================== *)
(** * Document composer ([convert_pdf_to_markdown]) *)
(* =================================================================== *)

(** The body size of the document: the most frequent size rounded to one
    decimal, or 12 when no character has a size.  (The inner [None] is not
    reached: the counter of a non-empty list is not empty.) *)
Definition estimate_body_size (pages : list page) : float :=
  let all_sizes := flat_map (fun p => sizes_of (chars p)) pages in
  match all_sizes with
  | [] => 12%float
  | _ =>
      let size_counter := Num.counter (map (fun s => Num.round s 1) all_sizes) in
      match Num.most_common1 size_counter with
      | Some body_size => body_size
      | None => 12%float
      end
  end.

Definition separated (t : part_type) : bool :=
  match t with
  | Heading | Paragraph | Table => true
  | _ => false
  end.

(** One round of the loop over [page_parts]; the accumulator is
    [(prev_type, md_output)]. *)
Definition emit (acc : option part_type * list str) (p : part)
  : option part_type * list str :=
  let '(prev_type, md_output) := acc in
  let '(part_type, content) := p in
  let md_output :=
    match prev_type with
    | Some prev =>
        if negb (part_type_eqb prev part_type) && separated part_type
        then md_output ++ [[]]
        else md_output
    | None => md_output
    end in
  (Some part_type, md_output ++ [content]).

(** The loop over the pages, [page_num] counting from 1. *)
Fixpoint compose (body_size : float) (n_pages page_num : nat) (pages : list page)
                 (md_output : list str) : list str :=
  match pages with
  | [] => md_output
  | p :: pages' =>
      let page_parts := process_page p (Some body_size) in
      let md_output := snd (fold_left emit page_parts (None, md_output)) in
      let md_output :=
        if page_num <? n_pages then md_output ++ [[]] else md_output in
      compose body_size n_pages (S page_num) pages' md_output
  end.

(** [convert_pdf_to_markdown] on the pages of the opened document. *)
Definition convert_pdf_to_markdown (pages : list page) : str :=
  Py.join [10%N]
    (compose (estimate_body_size pages) (length pages) 1 pages []).

End Engine.

(* ===================================================================== *)
(** * Definitions the statements and proofs use *)
(* ===================================================================== *)

(** The level as a function of the computed ratio alone. *)
Definition level_of_ratio (ratio : float) : option nat :=
  if PrimFloat.leb Config.h1 ratio then Some 1
  else if PrimFloat.leb Config.h2 ratio then Some 2
  else if PrimFloat.leb Config.h3 ratio then Some 3
  else None.

(** [st] with [ps] in front of its blocks. *)
Definition prepend (ps : list part) (st : state) : state :=
  {| current_list_type := current_list_type st;
     numbered_counter := numbered_counter st;
     paragraph_lines := paragraph_lines st;
     md_parts := ps ++ md_parts st |}.

(** [st] without the blocks emitted so far. *)
Definition pending (st : state) : state :=
  {| current_list_type := current_list_type st;
     numbered_counter := numbered_counter st;
     paragraph_lines := paragraph_lines st;
     md_parts := [] |}.

(** The kind of block a line of a class is emitted as. *)
Definition class_kind (c : line_class) : part_type :=
  match c with
  | IsHeading _ => Heading
  | BulletItem => Bullet
  | NumberedItem => Numbered
  | Emphasized => Bold
  | ParagraphText => Paragraph
  end.

(** Two states that the rest of the page cannot tell apart: they agree
    except for a counter that the next numbered line resets. *)
Definition same_output (a b : state) : Prop :=
  current_list_type a = current_list_type b
  /\ paragraph_lines a = paragraph_lines b
  /\ md_parts a = md_parts b
  /\ (is_numbered (current_list_type a) = true -> numbered_counter a = numbered_counter b).

(** The Numbered blocks of a run of lines whose first ordinal is [k]. *)
Definition numbered_parts (is_decimal : char -> bool) (k : nat) (run : list line_info)
  : list part :=
  map (fun '(n, li) => numbered_part is_decimal n (text li))
      (combine (seq k (length run)) run).

(** How many elements of [xs] compare equal to [r]. *)
Definition occurrences (r : float) (xs : list float) : nat :=
  length (filter (fun x => PrimFloat.eqb x r) xs).

(** The sizes the typography sampler counts: the sizes of all pages, each
    rounded to one decimal. *)
Definition rounded_sizes (pages : list page) : list float :=
  map (fun s => Num.round s 1) (flat_map (fun p => sizes_of (chars p)) pages).

(** All the characters of a document on one page. *)
Definition pooled_page (pages : list page) : page :=
  {| extract_text := [];
     chars := flat_map chars pages;
     extract_tables := [];
     find_tables := [] |}.

(* ===================================================================== *)
(** * Example inputs *)
(* ===================================================================== *)

(** A page without character data whose text is
    "intro / 1. a / 3. b / 7. c / end". *)
Definition numbered_page : page :=
  {| extract_text :=
       Py.lit "intro" ++ [10%N] ++ Py.lit "1. a" ++ [10%N] ++ Py.lit "3. b"
       ++ [10%N] ++ Py.lit "7. c" ++ [10%N] ++ Py.lit "end";
     chars := [];
     extract_tables := [];
     find_tables := [] |}.

(** A line of a page without character data. *)
Definition plain_line (s : str) : line_info :=
  {| text := s; font_size := None; is_bold := false |}.

(** A page without character data whose text is
    "- x / para one / para two / 1. y". *)
Definition paragraph_page : page :=
  {| extract_text :=
       Py.lit "- x" ++ [10%N] ++ Py.lit "para one" ++ [10%N]
       ++ Py.lit "para two" ++ [10%N] ++ Py.lit "1. y";
     chars := [];
     extract_tables := [];
     find_tables := [] |}.

(** A page without character data whose text is "- a / 1. b / c". *)
Definition plain_list_page : page :=
  {| extract_text := Py.lit "- a" ++ [10%N] ++ Py.lit "1. b" ++ [10%N] ++ Py.lit "c";
     chars := [];
     extract_tables := [];
     find_tables := [] |}.

(** The bold test as the specification words it, for comparison with
    [bold_font_name]: the font identifier contains "bold" when letter case is
    ignored (the letters A-Z are folded, which is all the comparison
    needs). *)
Definition spec_bold_font_name (fn : str) : bool :=
  Py.contains (Py.lit "bold")
    (map (fun c => if ((65 <=? c) && (c <=? 90))%N then (c + 32)%N else c) fn).

(** A character of size 12 at height [top] and abscissa [x0]. *)
Definition glyph (t : string) (top x0 : float) (fontname : string) : pdf_char :=
  {| c_text := Some (Py.lit t);
     c_size := Some 12%float;
     c_top := Some top;
     c_x0 := Some x0;
     c_fontname := Some (Py.lit fontname) |}.

(** A page of two lines: "ab" with one character in a bold font, and "c". *)
Definition bold_page : page :=
  {| extract_text := Py.lit "ab" ++ [10%N] ++ Py.lit "c";
     chars := [glyph "b" 10.2 5 "Helvetica"; glyph "a" 9.8 1 "Helvetica-Bold";
               glyph "c" 30 1 "Helvetica"];
     extract_tables := [];
     find_tables := [] |}.

(** A page of one character whose font identifier spells BOLD in capitals. *)
Definition bold_caps_page : page :=
  {| extract_text := Py.lit "x";
     chars := [glyph "x" 10 1 "Arial-BOLD"];
     extract_tables := [];
     find_tables := [] |}.

(** A page with no character, no text and no table. *)
Definition empty_page : page :=
  {| extract_text := []; chars := []; extract_tables := []; find_tables := [] |}.

(** An assembled line, given by its text, average size and bold flag. *)
Definition sized_line (s : string) (size : float) (bold : bool) : line_info :=
  {| text := Py.lit s; font_size := Some size; is_bold := bold |}.

(** The blocks of a page without tables whose lines are [lines]. *)
Definition blocks_of (body_size : float) (lines : list line_info) : list part :=
  md_parts (run_lines Config.basic_latin_digit (Some body_size) (init_state []) lines).

(** A page without character data and without tables, of text [t]. *)
Definition text_page (t : str) : page :=
  {| extract_text := t; chars := []; extract_tables := []; find_tables := [] |}.

(** The keys of a counter are pairwise different numbers. *)
Definition distinct_keys (d : list (float * nat)) : Prop :=
  ForallOrdPairs (fun a b => PrimFloat.eqb a b = false) (map fst d).

(** What a counter holds after the elements [xs]: each entry is an element
    with the number of its occurrences, every element has an entry, and the
    keys are pairwise different. *)
Definition counts (d : list (float * nat)) (xs : list float) : Prop :=
  (forall k n, In (k, n) d -> In k xs /\ n = occurrences k xs)
  /\ (forall x, In x xs -> exists k n, In (k, n) d /\ PrimFloat.eqb k x = true)
  /\ distinct_keys d.

(** A page with characters of sizes 10, 10.04, 12, 12 and 9.96. *)
Definition sizes_page : page :=
  {| extract_text := [];
     chars := map (fun s => {| c_text := None; c_size := Some s; c_top := None;
                               c_x0 := None; c_fontname := None |})
                  [10; 10.04; 12; 12; 9.96]%float;
     extract_tables := [];
     find_tables := [] |}.

(** Whether a string neither starts nor ends with white space. *)
Definition trimmed (s : str) : Prop :=
  (forall c s', s = c :: s' -> Py.is_space c = false)
  /\ (forall c s', s = s' ++ [c] -> Py.is_space c = false).

(** The key of the line a character is put on: [round(top, 0)]. *)
Definition rounded_top (c : pdf_char) : float :=
  Num.round (Num.get0 (c_top c)) 0.

(** No number is followed by a smaller one. *)
Definition ascending (l : list float) : Prop :=
  Sorted (fun a b => PrimFloat.ltb b a = false) l.

(** The grid of the cells a table is rendered with: the header cells as
    they are joined, the data cells after the replacement of line feeds. *)
Definition rendered_grid (t : table) : table :=
  match t with
  | [] => []
  | header :: rows =>
      map Some (header_cells header) :: map (fun row => map Some (data_cells row)) rows
  end.

(** Whether a block is something else than a paragraph. *)
Definition not_paragraph (b : part) : bool :=
  negb (part_type_eqb (fst b) Paragraph).

(** A page whose characters carry no size. *)
Definition unsized_page : page :=
  {| extract_text := Py.lit "Big";
     chars := [{| c_text := Some (Py.lit "B"); c_size := None; c_top := Some 1%float;
                  c_x0 := Some 1%float; c_fontname := None |};
               {| c_text := Some (Py.lit "ig"); c_size := Some 0%float;
                  c_top := Some 1%float; c_x0 := Some 2%float;
                  c_fontname := None |}];
     extract_tables := [];
     find_tables := [] |}.

(** The lines the loop over [page_parts] adds for one page. *)
Definition page_lines (page_parts : list part) : list str :=
  snd (fold_left emit page_parts (None, [])).

(** The lines of the pages with an empty line between two pages. *)
Fixpoint between_pages (pages_lines : list (list str)) : list str :=
  match pages_lines with
  | [] => []
  | [l] => l
  | l :: ls => l ++ [[]] ++ between_pages ls
  end.



(** The text a line shows in its block: the cleaned text for a list item,
    the text of the line otherwise. *)
Definition shown_text (is_decimal : char -> bool) (body_size : option float)
           (li : line_info) : str :=
  match classify_line is_decimal body_size li with
  | BulletItem => clean_bullet_text (text li)
  | NumberedItem => clean_numbered_text is_decimal (text li)
  | _ => text li
  end.

(** A text is shown by a state when a block of the given kind holds it, or
    when it waits among the pending paragraph lines. *)
Definition shown (st : state) (k : part_type) (x : str) : Prop :=
  (exists b a c, In b (md_parts st) /\ fst b = k /\ snd b = a ++ x ++ c)
  \/ (k = Paragraph /\ In x (paragraph_lines st)).

Unset Implicit Arguments.

(* ===================================================================== *)
(** * Heading levels *)
(* ===================================================================== *)

Lemma positive_truthy (b : float) :
  PrimFloat.ltb 0 b = true -> truthy (Some b) = true.
Proof.
  intros H. unfold truthy.
  rewrite FloatAxioms.ltb_spec in H. rewrite FloatAxioms.eqb_spec.
  replace (Prim2SF 0) with (S754_zero false) in * by reflexivity.
  destruct (Prim2SF b) as [s | s | | s m e];
    try destruct s; try discriminate H; reflexivity.
Qed.

(** A size that counts as false is a zero, and a zero over a positive
    body size is a zero again, below every positive threshold. *)
Lemma zero_ratio_below (c f b : float) :
  PrimFloat.ltb 0 c = true ->
  PrimFloat.eqb f 0 = true ->
  PrimFloat.ltb 0 b = true ->
  PrimFloat.leb c (PrimFloat.div f b) = false.
Proof.
  intros Hc Hf Hb.
  rewrite FloatAxioms.leb_spec, FloatAxioms.div_spec.
  rewrite FloatAxioms.eqb_spec in Hf. rewrite FloatAxioms.ltb_spec in Hb, Hc.
  replace (Prim2SF 0) with (S754_zero false) in * by reflexivity.
  destruct (Prim2SF f) as [sf | sf | | sf mf ef];
    try destruct sf; try discriminate Hf;
    destruct (Prim2SF b) as [sb | sb | | sb mb eb];
    try destruct sb; try discriminate Hb;
    destruct (Prim2SF c) as [sc | sc | | sc mc ec];
    try destruct sc; try discriminate Hc;
    reflexivity.
Qed.

Lemma get_heading_level_ratio (f b : float) :
  PrimFloat.ltb 0 b = true ->
  get_heading_level (Some f) (Some b) = level_of_ratio (PrimFloat.div f b).
Proof.
  intros Hb. unfold get_heading_level, level_of_ratio.
  rewrite (positive_truthy _ Hb). cbn [negb orb].
  unfold truthy. destruct (PrimFloat.eqb f 0) eqn:Hf; cbn [negb]; [|reflexivity].
  cbv zeta. rewrite !zero_ratio_below; auto.
Qed.

Lemma get_heading_level_undefined (body_size : option float) :
  get_heading_level None body_size = None.
Proof.
  unfold get_heading_level. cbn [truthy negb].
  now rewrite orb_true_r.
Qed.

(** C3. For a line with a defined average size [f] and a positive body size
    [b], the heading level is decided by the computed ratio [f / b] through
    the inclusive thresholds taken in descending order: at least 1.5 gives
    level 1, else at least 1.3 gives level 2, else at least 1.15 gives
    level 3, else no heading.  A ratio equal to a threshold gets the level of
    that threshold, and an undefined average size gives no heading. *)
Theorem heading_level_thresholds (f b : float) :
  PrimFloat.ltb 0 b = true ->
  let ratio := PrimFloat.div f b in
  get_heading_level (Some f) (Some b) =
    (if PrimFloat.leb 1.5 ratio then Some 1
     else if PrimFloat.leb 1.3 ratio then Some 2
     else if PrimFloat.leb 1.15 ratio then Some 3
     else None)
  /\ (ratio = 1.5%float -> get_heading_level (Some f) (Some b) = Some 1)
  /\ (ratio = 1.3%float -> get_heading_level (Some f) (Some b) = Some 2)
  /\ (ratio = 1.15%float -> get_heading_level (Some f) (Some b) = Some 3)
  /\ get_heading_level None (Some b) = None.
Proof.
  intros Hb ratio.
  pose proof (get_heading_level_ratio f b Hb) as E. fold ratio in E.
  repeat split.
  - exact E.
  - intros R. rewrite E, R. reflexivity.
  - intros R. rewrite E, R. reflexivity.
  - intros R. rewrite E, R. reflexivity.
  - apply get_heading_level_undefined.
Qed.

(** A size of 13 over a body size of 10 is exactly the second threshold. *)
Lemma heading_level_thresholds_witness :
  PrimFloat.ltb 0 10 = true
  /\ get_heading_level (Some 13%float) (Some 10%float) = Some 2.
Proof.
  split; [reflexivity|].
  apply (heading_level_thresholds 13 10); reflexivity.
Defined.

(* ===================================================================== *)
(** * The reassembler as a state machine *)
(* ===================================================================== *)

Section Reassembler.
Variable is_decimal : char -> bool.
Variable body_size : option float.

#[local] Abbreviation step' := (step is_decimal body_size).
#[local] Abbreviation classify' := (classify_line is_decimal body_size).
#[local] Abbreviation run_lines' := (run_lines is_decimal body_size).

Lemma prepend_pending st : prepend (md_parts st) (pending st) = st.
Proof. destruct st; unfold prepend, pending; cbn. now rewrite app_nil_r. Qed.

Lemma flush_prepend ps st : flush (prepend ps st) = prepend ps (flush st).
Proof.
  destruct st as [lt n [|l ls] parts]; unfold flush, prepend; cbn;
    [reflexivity | now rewrite app_assoc].
Qed.

Lemma append_part_prepend ps p lt n st :
  append_part p lt n (prepend ps st) = prepend ps (append_part p lt n st).
Proof. unfold append_part, prepend; cbn. now rewrite app_assoc. Qed.

Lemma flush_list_type st : current_list_type (flush st) = current_list_type st.
Proof. unfold flush; now destruct (paragraph_lines st). Qed.

Lemma flush_counter st : numbered_counter (flush st) = numbered_counter st.
Proof. unfold flush; now destruct (paragraph_lines st). Qed.

Lemma flush_paragraph_lines st : paragraph_lines (flush st) = [].
Proof. unfold flush; now destruct (paragraph_lines st) eqn:E. Qed.

Lemma flush_empty st : paragraph_lines st = [] -> flush st = st.
Proof. unfold flush; now intros ->. Qed.

(** [step] by the class of the line. *)
Lemma step_classified st li :
  step' st li =
    match classify' li with
    | IsHeading level =>
        append_part (heading_part level (text li)) None (numbered_counter st) (flush st)
    | BulletItem =>
        append_part (bullet_part (text li)) (Some IsBullet) (numbered_counter st) (flush st)
    | NumberedItem =>
        let n := S (if is_numbered (current_list_type st) then numbered_counter st else 0) in
        append_part (numbered_part is_decimal n (text li)) (Some IsNumbered) n (flush st)
    | Emphasized =>
        append_part (bold_part (text li)) None (numbered_counter st) (flush st)
    | ParagraphText =>
        {| current_list_type := None;
           numbered_counter := numbered_counter st;
           paragraph_lines := paragraph_lines st ++ [text li];
           md_parts := md_parts st |}
    end.
Proof.
  unfold step, classify_line.
  destruct (get_heading_level (font_size li) body_size) as [[|k]|];
    destruct (is_bullet_list (text li));
    destruct (is_numbered_list is_decimal (text li));
    destruct (is_bold li && (length (text li) <? 100));
    cbv zeta; rewrite ?flush_list_type, ?flush_counter; reflexivity.
Qed.

Lemma step_prepend ps st li : step' (prepend ps st) li = prepend ps (step' st li).
Proof.
  rewrite !step_classified.
  destruct (classify' li); cbv zeta;
    rewrite ?flush_prepend, ?append_part_prepend; reflexivity.
Qed.

Lemma fold_step_prepend ps lines : forall st,
  fold_left step' lines (prepend ps st) = prepend ps (fold_left step' lines st).
Proof.
  induction lines as [|li lines IH]; intros st; cbn; [reflexivity|].
  now rewrite step_prepend, IH.
Qed.

Lemma run_lines_prepend ps lines st :
  md_parts (run_lines' (prepend ps st) lines) = ps ++ md_parts (run_lines' st lines).
Proof.
  unfold run_lines. now rewrite fold_step_prepend, flush_prepend.
Qed.

(** The blocks of a page are those it had at the start followed by those
    the lines add. *)
Lemma run_lines_parts st lines :
  md_parts (run_lines' st lines) = md_parts st ++ md_parts (run_lines' (pending st) lines).
Proof. now rewrite <- run_lines_prepend, prepend_pending. Qed.

Lemma run_lines_app st l1 l2 :
  run_lines' st (l1 ++ l2) = run_lines' (fold_left step' l1 st) l2.
Proof. unfold run_lines. now rewrite fold_left_app. Qed.


Lemma state_eta st :
  st = {| current_list_type := current_list_type st;
          numbered_counter := numbered_counter st;
          paragraph_lines := paragraph_lines st;
          md_parts := md_parts st |}.
Proof. now destruct st. Qed.

(** After a line, the list type is 'numbered' exactly when the line was a
    numbered item. *)
Lemma step_list_type st li :
  is_numbered (current_list_type (step' st li))
  = line_class_eqb (classify' li) NumberedItem.
Proof. rewrite step_classified. now destruct (classify' li). Qed.

(** After a line other than paragraph text, nothing is pending. *)
Lemma step_paragraph_lines st li :
  classify' li <> ParagraphText -> paragraph_lines (step' st li) = [].
Proof.
  intros H. rewrite step_classified.
  destruct (classify' li); cbn; try apply flush_paragraph_lines.
  now contradiction H.
Qed.

Lemma last_not_numbered pre st :
  is_numbered (current_list_type st) = false ->
  (forall pre' l, pre = pre' ++ [l] -> classify' l <> NumberedItem) ->
  is_numbered (current_list_type (fold_left step' pre st)) = false.
Proof.
  intros Hst Hlast.
  destruct pre as [|x pre0] using rev_ind; [exact Hst|].
  rewrite fold_left_app. cbn. rewrite step_list_type.
  specialize (Hlast pre0 x eq_refl).
  now destruct (classify' x).
Qed.

Lemma last_not_paragraph pre st :
  paragraph_lines st = [] ->
  (forall pre' l, pre = pre' ++ [l] -> classify' l <> ParagraphText) ->
  paragraph_lines (fold_left step' pre st) = [].
Proof.
  intros Hst Hlast.
  destruct pre as [|x pre0] using rev_ind; [exact Hst|].
  rewrite fold_left_app. cbn. apply step_paragraph_lines.
  exact (Hlast pre0 x eq_refl).
Qed.

(** A run of numbered items that continues a numbered list. *)
Lemma fold_numbered_run run : forall st,
  Forall (fun li => classify' li = NumberedItem) run ->
  current_list_type st = Some IsNumbered ->
  paragraph_lines st = [] ->
  fold_left step' run st =
    {| current_list_type := Some IsNumbered;
       numbered_counter := numbered_counter st + length run;
       paragraph_lines := [];
       md_parts := md_parts st ++ numbered_parts is_decimal (S (numbered_counter st)) run |}.
Proof.
  induction run as [|li run IH]; intros st Hrun Hlt Hpl.
  - cbn. rewrite (state_eta st) at 1. rewrite Hlt, Hpl, Nat.add_0_r.
    unfold numbered_parts. cbn. now rewrite app_nil_r.
  - inversion Hrun as [|? ? Hli Hrun']; subst.
    cbn [fold_left]. rewrite step_classified, Hli, Hlt. cbn [is_numbered].
    cbv zeta. rewrite (flush_empty _ Hpl).
    rewrite IH; [|assumption|reflexivity|exact Hpl].
    cbn. f_equal; [lia|].
    rewrite <- app_assoc. reflexivity.
Qed.

(** A run of numbered items that starts a numbered list: the pending
    paragraph is flushed and the ordinals count from 1. *)
Lemma fold_numbered_run_start run st :
  run <> [] ->
  Forall (fun li => classify' li = NumberedItem) run ->
  is_numbered (current_list_type st) = false ->
  fold_left step' run st =
    prepend (md_parts (flush st) ++ numbered_parts is_decimal 1 run)
      {| current_list_type := Some IsNumbered;
         numbered_counter := length run;
         paragraph_lines := [];
         md_parts := [] |}.
Proof.
  intros Hne Hrun Hlt.
  destruct run as [|li run]; [now contradiction Hne|].
  inversion Hrun as [|? ? Hli Hrun']; subst.
  cbn [fold_left]. rewrite step_classified, Hli, Hlt. cbv zeta.
  rewrite fold_numbered_run; [|assumption|reflexivity|apply flush_paragraph_lines].
  unfold prepend. cbn. rewrite app_nil_r, <- app_assoc. reflexivity.
Qed.

(** A run of paragraph lines only grows the pending buffer. *)
Lemma fold_paragraph_run run : forall st,
  run <> [] ->
  Forall (fun li => classify' li = ParagraphText) run ->
  fold_left step' run st =
    {| current_list_type := None;
       numbered_counter := numbered_counter st;
       paragraph_lines := paragraph_lines st ++ map text run;
       md_parts := md_parts st |}.
Proof.
  induction run as [|li run IH]; intros st Hne Hrun; [now contradiction Hne|].
  inversion Hrun as [|? ? Hli Hrun']; subst.
  cbn [fold_left]. rewrite step_classified, Hli.
  destruct run as [|li' run]; [reflexivity|].
  rewrite IH; [|discriminate|assumption].
  cbn. now rewrite <- app_assoc.
Qed.

Lemma flush_same_output a b : same_output a b -> same_output (flush a) (flush b).
Proof.
  destruct a as [lta na pa ma], b as [ltb nb pb mb].
  unfold same_output, flush; cbn. intros (-> & -> & -> & Hn).
  destruct pb; cbn; auto.
Qed.

Lemma step_same_output a b li :
  same_output a b -> same_output (step' a li) (step' b li).
Proof.
  intros H. pose proof (flush_same_output _ _ H) as Hf.
  rewrite !step_classified.
  destruct H as (Hlt & Hpl & Hmd & Hn), Hf as (Hflt & Hfpl & Hfmd & Hfn).
  destruct (classify' li); unfold same_output; cbn;
    rewrite ?Hfpl, ?Hfmd, ?Hpl, ?Hmd; try (repeat split; congruence).
  rewrite <- Hlt.
  destruct (is_numbered (current_list_type a)) eqn:E;
    [rewrite (Hn eq_refl)|]; repeat split; congruence.
Qed.

Lemma run_lines_same_output lines : forall a b,
  same_output a b ->
  md_parts (run_lines' a lines) = md_parts (run_lines' b lines).
Proof.
  unfold run_lines.
  induction lines as [|li lines IH]; intros a b H; cbn.
  - now apply flush_same_output in H as (_ & _ & ? & _).
  - apply IH. now apply step_same_output.
Qed.

(** Every block the lines add is a paragraph or has the kind of the class
    of one of the lines. *)
Lemma fold_step_kinds lines : forall st b,
  In b (md_parts (fold_left step' lines st)) ->
  In b (md_parts st)
  \/ fst b = Paragraph
  \/ exists li, In li lines /\ fst b = class_kind (classify' li).
Proof.
  assert (Hflush : forall st b, In b (md_parts (flush st)) ->
                                In b (md_parts st) \/ fst b = Paragraph).
  { intros st b. unfold flush. destruct (paragraph_lines st); cbn; auto.
    rewrite in_app_iff. cbn. intros [H|[<-|[]]]; auto. }
  induction lines as [|li lines IH]; intros st b; cbn [fold_left]; auto.
  intros H. apply IH in H as [H|[H|(li' & Hin & H)]].
  - rewrite step_classified in H.
    destruct (classify' li) eqn:E; cbn in H;
      try (apply in_app_iff in H as [H|[<-|[]]];
           [apply Hflush in H as [H|H]; auto
           |right; right; exists li; rewrite E; split; [now left|reflexivity]]).
    now left.
  - auto.
  - right; right. exists li'. split; [now right|exact H].
Qed.

Lemma run_lines_kinds lines st b :
  In b (md_parts (run_lines' st lines)) ->
  In b (md_parts st)
  \/ fst b = Paragraph
  \/ exists li, In li lines /\ fst b = class_kind (classify' li).
Proof.
  unfold run_lines, flush.
  destruct (paragraph_lines (fold_left step' lines st)); cbn.
  - apply fold_step_kinds.
  - rewrite in_app_iff. cbn. intros [H|[<-|[]]]; auto.
    now apply fold_step_kinds.
Qed.

(** The blocks of one kind among those a flush leaves. *)
Lemma filter_flush (k : part_type) st :
  k <> Paragraph ->
  filter (fun b => part_type_eqb (fst b) k) (md_parts (flush st))
  = filter (fun b => part_type_eqb (fst b) k) (md_parts st).
Proof.
  intros Hk. unfold flush. destruct (paragraph_lines st); cbn; [reflexivity|].
  rewrite filter_app. cbn. destruct k; try now rewrite app_nil_r.
  now contradiction Hk.
Qed.

(** Bullet blocks: one per bullet line, in order, each from its own line. *)
Lemma run_lines_bullets lines : forall st,
  filter (fun b => part_type_eqb (fst b) Bullet) (md_parts (run_lines' st lines))
  = filter (fun b => part_type_eqb (fst b) Bullet) (md_parts st)
    ++ map (fun li => bullet_part (text li))
           (filter (fun li => line_class_eqb (classify' li) BulletItem) lines).
Proof.
  unfold run_lines.
  induction lines as [|li lines IH]; intros st; cbn [fold_left filter map].
  - rewrite filter_flush by discriminate. now rewrite app_nil_r.
  - rewrite IH, step_classified.
    destruct (classify' li); cbn [line_class_eqb md_parts append_part map];
      rewrite ?filter_app, ?filter_flush by discriminate; cbn;
      rewrite ?app_nil_r, <- ?app_assoc; reflexivity.
Qed.

(** Numbered blocks: as many as numbered lines. *)
Lemma run_lines_numbered_count lines : forall st,
  length (filter (fun b => part_type_eqb (fst b) Numbered) (md_parts (run_lines' st lines)))
  = length (filter (fun b => part_type_eqb (fst b) Numbered) (md_parts st))
    + length (filter (fun li => line_class_eqb (classify' li) NumberedItem) lines).
Proof.
  unfold run_lines.
  induction lines as [|li lines IH]; intros st; cbn [fold_left filter].
  - rewrite filter_flush by discriminate. cbn. lia.
  - rewrite IH, step_classified.
    destruct (classify' li); cbv zeta; cbn [line_class_eqb md_parts append_part];
      rewrite ?filter_app, ?length_app, ?filter_flush by discriminate;
      cbn [filter fst numbered_part heading_part bullet_part bold_part part_type_eqb
           length];
      lia.
Qed.

End Reassembler.

Lemma table_parts_kind (tables : list table) :
  Forall (fun b => fst b = Table) (table_parts tables).
Proof.
  unfold table_parts.
  induction tables as [|t ts IH]; cbn; [constructor|].
  destruct (table_to_markdown t); [exact IH|constructor; [reflexivity|exact IH]].
Qed.

Lemma filter_table_parts (k : part_type) (tables : list table) :
  k <> Table ->
  filter (fun b => part_type_eqb (fst b) k) (table_parts tables) = [].
Proof.
  intros Hk. pose proof (table_parts_kind tables) as H.
  induction H as [|b l Hb _ IH]; cbn; [reflexivity|].
  rewrite Hb, IH. destruct k; try reflexivity. now contradiction Hk.
Qed.

(* ===================================================================== *)
(** * Numbered runs *)
(* ===================================================================== *)

(** C1. On every page, a run of lines classified as numbered items that is
    not preceded by a numbered item is emitted as Numbered blocks whose
    ordinals are 1, 2, 3, ... in order: the block of the n-th line of the run
    carries n and the cleaned text of that line, whatever numeral the line
    starts with.  Before them come the blocks of the lines before the run
    (as if the page ended there), after them the blocks of the rest, which
    continue the count. *)
Theorem numbered_run_ordinals
  (is_decimal : char -> bool) (p : page) (body_size : option float)
  (pre run post : list line_info) :
  extract_text_with_formatting p body_size = pre ++ run ++ post ->
  run <> [] ->
  Forall (fun li => classify_line is_decimal body_size li = NumberedItem) run ->
  (forall pre' l, pre = pre' ++ [l] ->
                  classify_line is_decimal body_size l <> NumberedItem) ->
  process_page is_decimal p body_size =
    md_parts (run_lines is_decimal body_size
                (init_state (table_parts (extract_tables p))) pre)
    ++ map (fun '(n, li) => numbered_part is_decimal n (text li))
           (combine (seq 1 (length run)) run)
    ++ md_parts (run_lines is_decimal body_size
                   {| current_list_type := Some IsNumbered;
                      numbered_counter := length run;
                      paragraph_lines := [];
                      md_parts := [] |}
                   post).
Proof.
  intros Hlines Hne Hrun Hpre.
  unfold process_page. cbv zeta. rewrite Hlines, !run_lines_app.
  rewrite (fold_numbered_run_start is_decimal body_size run _ Hne Hrun)
    by (apply last_not_numbered; [reflexivity|exact Hpre]).
  rewrite run_lines_prepend, <- app_assoc. reflexivity.
Qed.

Lemma numbered_run_ordinals_witness :
  process_page Config.basic_latin_digit numbered_page (Some 12%float) =
    [(Paragraph, Py.lit "intro"); (Numbered, Py.lit "1. a");
     (Numbered, Py.lit "2. b"); (Numbered, Py.lit "3. c");
     (Paragraph, Py.lit "end")].
Proof.
  etransitivity.
  - apply (numbered_run_ordinals Config.basic_latin_digit numbered_page (Some 12%float)
             [plain_line (Py.lit "intro")]
             [plain_line (Py.lit "1. a"); plain_line (Py.lit "3. b");
              plain_line (Py.lit "7. c")]
             [plain_line (Py.lit "end")]).
    + reflexivity.
    + discriminate.
    + repeat constructor.
    + intros [|x [|y pre']] l H; try discriminate H.
      injection H as <-. vm_compute. discriminate.
  - reflexivity.
Defined.

(* ===================================================================== *)
(** * Paragraph runs and list items *)
(* ===================================================================== *)

(** C2. On every page, a maximal run of N lines classified as paragraph text
    (the line before it and the line after it, where there is one, are of
    another class) gives exactly one Paragraph block, the N texts joined by
    single spaces: before it come the blocks of the lines before the run,
    which leave nothing pending, and after it the blocks of the lines after
    the run, as a fresh page would emit them.  List items are never merged:
    the Bullet blocks are those of the bullet lines, one for each in order,
    and there are as many Numbered blocks as numbered lines. *)
Theorem paragraph_run_one_block
  (is_decimal : char -> bool) (p : page) (body_size : option float)
  (pre run post : list line_info) :
  extract_text_with_formatting p body_size = pre ++ run ++ post ->
  run <> [] ->
  Forall (fun li => classify_line is_decimal body_size li = ParagraphText) run ->
  (forall pre' l, pre = pre' ++ [l] ->
                  classify_line is_decimal body_size l <> ParagraphText) ->
  (forall l post', post = l :: post' ->
                   classify_line is_decimal body_size l <> ParagraphText) ->
  process_page is_decimal p body_size =
    md_parts (run_lines is_decimal body_size
                (init_state (table_parts (extract_tables p))) pre)
    ++ [(Paragraph, Py.join (Py.lit " ") (map text run))]
    ++ md_parts (run_lines is_decimal body_size (init_state []) post)
  /\ filter (fun b => part_type_eqb (fst b) Bullet) (process_page is_decimal p body_size)
     = map (fun li => bullet_part (text li))
           (filter (fun li => line_class_eqb (classify_line is_decimal body_size li)
                                             BulletItem)
                   (pre ++ run ++ post))
  /\ length (filter (fun b => part_type_eqb (fst b) Numbered)
                    (process_page is_decimal p body_size))
     = length (filter (fun li => line_class_eqb (classify_line is_decimal body_size li)
                                                NumberedItem)
                      (pre ++ run ++ post)).
Proof.
  intros Hlines Hne Hrun Hpre Hpost.
  unfold process_page. cbv zeta. rewrite Hlines.
  split; [|split].
  - rewrite !run_lines_app.
    set (st := fold_left (step is_decimal body_size) pre _).
    assert (Hpl : paragraph_lines st = [])
      by (apply last_not_paragraph; [reflexivity|exact Hpre]).
    replace (run_lines is_decimal body_size _ pre) with st
      by (unfold run_lines; fold st; now rewrite flush_empty).
    rewrite (fold_paragraph_run is_decimal body_size run st Hne Hrun), Hpl.
    cbn [app].
    destruct post as [|l post].
    + unfold run_lines, flush. cbn.
      destruct (map text run) eqn:E; [|reflexivity].
      now destruct run.
    + unfold run_lines. cbn [fold_left].
      specialize (Hpost l post eq_refl).
      set (st1 := {| current_list_type := None;
                     numbered_counter := numbered_counter st;
                     paragraph_lines := map text run;
                     md_parts := md_parts st |}).
      assert (Hflush : flush st1 =
                prepend (md_parts st ++ [(Paragraph, Py.join (Py.lit " ") (map text run))])
                        {| current_list_type := None;
                           numbered_counter := numbered_counter st;
                           paragraph_lines := [];
                           md_parts := [] |}).
      { unfold flush, prepend, st1. cbn.
        destruct (map text run) eqn:E; [now destruct run|].
        now rewrite app_nil_r. }
      assert (Hstep : step is_decimal body_size st1 l =
                      step is_decimal body_size (flush st1) l).
      { rewrite !step_classified.
        destruct (classify_line is_decimal body_size l);
          rewrite ?flush_list_type, ?flush_counter,
            ?(flush_empty (flush st1) (flush_paragraph_lines st1));
          try reflexivity.
        now contradiction Hpost. }
      rewrite Hstep, Hflush, step_prepend, fold_step_prepend, flush_prepend.
      cbn [md_parts prepend]. rewrite <- app_assoc.
      apply (f_equal (app (md_parts st))), (f_equal (app [_])).
      apply (run_lines_same_output is_decimal body_size (l :: post)).
      unfold same_output. cbn. repeat split; discriminate.
  - rewrite run_lines_bullets. cbn [md_parts init_state].
    now rewrite filter_table_parts by discriminate.
  - rewrite run_lines_numbered_count. cbn [md_parts init_state].
    now rewrite filter_table_parts by discriminate.
Qed.

Lemma paragraph_run_one_block_witness :
  process_page Config.basic_latin_digit paragraph_page (Some 12%float) =
    [(Bullet, Py.lit "- x"); (Paragraph, Py.lit "para one para two");
     (Numbered, Py.lit "1. y")].
Proof.
  etransitivity.
  - apply (paragraph_run_one_block Config.basic_latin_digit paragraph_page
             (Some 12%float)
             [plain_line (Py.lit "- x")]
             [plain_line (Py.lit "para one"); plain_line (Py.lit "para two")]
             [plain_line (Py.lit "1. y")]).
    + reflexivity.
    + discriminate.
    + repeat constructor.
    + intros [|x [|y pre']] l H; try discriminate H.
      injection H as <-. vm_compute. discriminate.
    + intros l post' H. injection H as <- _. vm_compute. discriminate.
  - reflexivity.
Defined.

(* ===================================================================== *)
(** * Tables before text *)
(* ===================================================================== *)

(** C10. The blocks of a page are its table blocks followed by the blocks of
    its text lines: every table block comes before every heading, paragraph,
    bullet, numbered or emphasized block.  The bounding boxes of the tables
    play no part: a page with other boxes gives the same blocks. *)
Theorem tables_before_text
  (is_decimal : char -> bool) (p : page) (body_size : option float) :
  let text_parts :=
    md_parts (run_lines is_decimal body_size (init_state [])
                (extract_text_with_formatting p body_size)) in
  process_page is_decimal p body_size = table_parts (extract_tables p) ++ text_parts
  /\ Forall (fun b => fst b = Table) (table_parts (extract_tables p))
  /\ Forall (fun b => In (fst b) [Heading; Paragraph; Bullet; Numbered; Bold]) text_parts
  /\ forall boxes : list bbox,
       process_page is_decimal
         {| extract_text := extract_text p;
            chars := chars p;
            extract_tables := extract_tables p;
            find_tables := boxes |} body_size
       = process_page is_decimal p body_size.
Proof.
  cbv zeta. split; [|split; [|split]].
  - unfold process_page. cbv zeta. now rewrite run_lines_parts.
  - apply table_parts_kind.
  - apply Forall_forall. intros b Hb.
    apply run_lines_kinds in Hb as [[]|[->|(li & _ & ->)]].
    + cbn; auto.
    + destruct (classify_line is_decimal body_size li); cbn; auto 6.
  - intros boxes. reflexivity.
Qed.

(* ===================================================================== *)
(** * Pages without character data *)
(* ===================================================================== *)

Lemma filter_map_Forall {A B} (f : A -> option B) (P : B -> Prop) (l : list A) :
  (forall x y, f x = Some y -> P y) -> Forall P (filter_map f l).
Proof.
  intros H. induction l as [|x l IH]; cbn; [constructor|].
  destruct (f x) eqn:E; [constructor; eauto|exact IH].
Qed.

Lemma plain_lines_unformatted (t : str) :
  Forall (fun li => font_size li = None /\ is_bold li = false) (plain_lines t).
Proof.
  apply filter_map_Forall. intros line li.
  destruct (Py.strip line); [discriminate|].
  now intros [= <-].
Qed.

Lemma classify_unformatted (is_decimal : char -> bool) body_size li :
  font_size li = None -> is_bold li = false ->
  In (classify_line is_decimal body_size li) [ParagraphText; BulletItem; NumberedItem].
Proof.
  intros Hf Hb. unfold classify_line.
  rewrite Hf, get_heading_level_undefined, Hb.
  destruct (is_bullet_list (text li)); [cbn; auto|].
  destruct (is_numbered_list is_decimal (text li)); cbn; auto.
Qed.

(** C8, as the code has it.  On a page without character data, every
    non-blank line of the plain text becomes a line with undefined size and
    bold = false; such a line is classified as paragraph text, bullet item or
    numbered item by its text alone, so the page yields no heading and no
    emphasized block, while bullet and numbered blocks do occur. *)
Theorem plain_text_page_blocks
  (is_decimal : char -> bool) (p : page) (body_size : option float) :
  chars p = [] ->
  extract_text_with_formatting p body_size = plain_lines (extract_text p)
  /\ Forall (fun li => font_size li = None /\ is_bold li = false)
            (extract_text_with_formatting p body_size)
  /\ Forall (fun li => In (classify_line is_decimal body_size li)
                          [ParagraphText; BulletItem; NumberedItem])
            (extract_text_with_formatting p body_size)
  /\ Forall (fun b => In (fst b) [Table; Paragraph; Bullet; Numbered])
            (process_page is_decimal p body_size).
Proof.
  intros Hchars.
  assert (E : extract_text_with_formatting p body_size = plain_lines (extract_text p)).
  { unfold extract_text_with_formatting. rewrite Hchars.
    now destruct (extract_text p). }
  assert (U : Forall (fun li => font_size li = None /\ is_bold li = false)
                     (extract_text_with_formatting p body_size))
    by (rewrite E; apply plain_lines_unformatted).
  assert (C : Forall (fun li => In (classify_line is_decimal body_size li)
                                   [ParagraphText; BulletItem; NumberedItem])
                     (extract_text_with_formatting p body_size)).
  { eapply Forall_impl; [|exact U]. intros li [Hf Hb].
    now apply classify_unformatted. }
  repeat split; try assumption.
  apply Forall_forall. intros b Hb.
  unfold process_page in Hb. cbv zeta in Hb.
  apply run_lines_kinds in Hb as [Hb|[->|(li & Hli & ->)]].
  - pose proof (table_parts_kind (extract_tables p)) as T.
    rewrite Forall_forall in T. rewrite (T b Hb). cbn; auto.
  - cbn; auto.
  - rewrite Forall_forall in C. specialize (C li Hli).
    cbn in C. destruct C as [<-|[<-|[<-|[]]]]; cbn; auto.
Qed.

Lemma plain_text_page_blocks_witness :
  Forall (fun b => In (fst b) [Table; Paragraph; Bullet; Numbered])
         (process_page Config.basic_latin_digit plain_list_page (Some 12%float)).
Proof.
  apply (plain_text_page_blocks Config.basic_latin_digit plain_list_page
           (Some 12%float) eq_refl).
Defined.

(** C8 as stated fails: the page above has no character data, and its blocks
    are a Bullet block, a Numbered block and a Paragraph block. *)
Lemma plain_text_page_list_blocks :
  chars plain_list_page = []
  /\ process_page Config.basic_latin_digit plain_list_page (Some 12%float)
     = [(Bullet, Py.lit "- a"); (Numbered, Py.lit "1. b"); (Paragraph, Py.lit "c")].
Proof. split; reflexivity. Qed.

(* ===================================================================== *)
(** * Table serializer *)
(* ===================================================================== *)

(** C4, as the code has it.  A grid gives no table block exactly when it has
    no row or its first row is empty.  A grid that is a single non-empty
    header row gives a table block: the header line and the separator
    line. *)
Theorem table_block_absent (t : table) (c : cell) (header : list cell) :
  (table_parts [t] = [] <-> t = [] \/ exists rows, t = [] :: rows)
  /\ table_parts [[c :: header]] =
       [(Table, render_row (header_cells (c :: header)) ++ [10%N]
                ++ render_row (separator_cells (c :: header)))].
Proof.
  split.
  - destruct t as [|[|c0 h] rows]; cbn.
    + split; auto.
    + split; eauto.
    + split; [discriminate|].
      intros [H|(rows' & H)]; discriminate H.
  - reflexivity.
Qed.

(** C4 as stated fails: a single header row without data rows gives a table
    block. *)
Lemma header_only_table_block :
  table_parts [[[Some (Py.lit "a")]]]
  = [(Table, Py.lit "| a |" ++ [10%N] ++ Py.lit "| --- |")].
Proof. reflexivity. Qed.

(** C5, as the code has it.  The header line and the separator line have
    one cell per header cell; every data line has one cell per cell of its
    own row, so a row shorter than the header is rendered short, not padded.
    A cell that is [None] or empty is rendered as an empty string in its
    place, not left out. *)
Theorem rendered_row_widths (header : list cell) (rows : list (list cell)) :
  map (@length str) (md_rows header rows)
  = length header :: length header :: map (@length cell) rows
  /\ (forall (row : list cell) (i : nat),
        nth_error row i = Some None \/ nth_error row i = Some (Some []) ->
        nth_error (data_cells row) i = Some [])
  /\ (forall (i : nat),
        nth_error header i = Some None \/ nth_error header i = Some (Some []) ->
        nth_error (header_cells header) i = Some []).
Proof.
  unfold md_rows, header_cells, separator_cells, data_cells. split; [|split].
  - cbn. rewrite length_map, repeat_length, map_map. do 2 f_equal.
    apply map_ext. intros row. now rewrite !length_map.
  - intros row i H. rewrite map_map, nth_error_map.
    destruct H as [-> | ->]; reflexivity.
  - intros i H. rewrite nth_error_map.
    destruct H as [-> | ->]; reflexivity.
Qed.

(** C5 as stated fails: under a header of two cells, a data row of one cell
    is rendered with one cell. *)
Lemma short_row_not_padded :
  table_to_markdown [[Some (Py.lit "a"); Some (Py.lit "b")]; [Some (Py.lit "c")]]
  = Py.lit "| a | b |" ++ [10%N] ++ Py.lit "| --- | --- |" ++ [10%N] ++ Py.lit "| c |"
  /\ map (@length str) (md_rows [Some (Py.lit "a"); Some (Py.lit "b")]
                                 [[Some (Py.lit "c")]])
     = [2; 2; 1].
Proof. split; reflexivity. Qed.

(** The cells of a data line hold no line feed. *)
Lemma data_cells_no_line_feed (row : list cell) :
  Forall (fun c => ~ In 10%N c) (data_cells row).
Proof.
  unfold data_cells. apply Forall_forall. intros c Hc.
  apply in_map_iff in Hc as (s & <- & _).
  unfold Py.replace. intros H. apply in_map_iff in H as (x & H & _).
  destruct (N.eqb x 10) eqn:E; [discriminate H|].
  apply N.eqb_neq in E. congruence.
Qed.

(** C6 at a header cell with a line feed: the line feed of the data cell
    becomes a space, the one of the header cell stays, and the header line
    is broken in two. *)
Theorem header_line_feed_kept :
  table_to_markdown [[Some (Py.lit "a" ++ [10%N] ++ Py.lit "b")];
                     [Some (Py.lit "c" ++ [10%N] ++ Py.lit "d")]]
  = Py.lit "| a" ++ [10%N] ++ Py.lit "b |" ++ [10%N]
    ++ Py.lit "| --- |" ++ [10%N]
    ++ Py.lit "| c d |".
Proof. reflexivity. Qed.

(* ===================================================================== *)
(** * Line assembler: the bold flag *)
(* ===================================================================== *)

Lemma starts_with_spec (sub s : str) :
  Py.starts_with sub s = true <-> exists b, s = sub ++ b.
Proof.
  revert s. induction sub as [|x sub IH]; intros s; cbn.
  - split; eauto.
  - destruct s as [|y s].
    + split; [discriminate|]. intros (b & H). discriminate H.
    + rewrite andb_true_iff, N.eqb_eq, IH. split.
      * intros (-> & b & ->). now exists b.
      * intros (b & [= -> ->]). eauto.
Qed.

(** [sub in s] holds exactly when [s] is [a ++ sub ++ b] for some [a], [b]. *)
Lemma contains_spec (sub s : str) :
  Py.contains sub s = true <-> exists a b, s = a ++ sub ++ b.
Proof.
  induction s as [|y s IH].
  - cbn [Py.contains]. rewrite orb_false_r, starts_with_spec. split.
    + intros (b & H). now exists [], b.
    + intros (a & b & H). destruct a; [now exists b|discriminate H].
  - cbn [Py.contains]. rewrite orb_true_iff, starts_with_spec, IH. split.
    + intros [(b & H)|(a & b & ->)]; [now exists [], b|now exists (y :: a), b].
    + intros ([|x a] & b & H); [left; now exists b|].
      right. injection H as -> ->. now exists a, b.
Qed.

Lemma In_filter_map {A B} (f : A -> option B) (l : list A) (y : B) :
  In y (filter_map f l) -> exists x, In x l /\ f x = Some y.
Proof.
  induction l as [|x l IH]; cbn; [contradiction|].
  destruct (f x) eqn:E.
  - intros [<-|H]; [now exists x; auto|].
    destruct (IH H) as (x' & ? & ?). exists x'. auto.
  - intros H. destruct (IH H) as (x' & ? & ?). exists x'. auto.
Qed.

Lemma In_insert {A} (key : A -> float) (x y : A) (l : list A) :
  In y (Num.insert key x l) <-> y = x \/ In y l.
Proof.
  induction l as [|z l IH]; cbn.
  - intuition.
  - destruct (PrimFloat.ltb (key z) (key x)); cbn; rewrite ?IH; intuition.
Qed.

(** Sorting keeps the elements. *)
Lemma In_sorted {A} (key : A -> float) (y : A) (l : list A) :
  In y (Num.sorted key l) <-> In y l.
Proof.
  induction l as [|x l IH]; cbn; [reflexivity|].
  rewrite In_insert, IH. intuition.
Qed.

Lemma In_update_append (c0 : pdf_char) (k : float) (d : list (float * list pdf_char))
      (kv : float * list pdf_char) (c : pdf_char) :
  In kv (Num.update [] (fun l => l ++ [c0]) k d) -> In c (snd kv) ->
  c = c0 \/ exists kv', In kv' d /\ In c (snd kv').
Proof.
  induction d as [|[k' v] d IH]; cbn.
  - intros [<-|[]]. cbn. intros [<-|[]]. now left.
  - destruct (PrimFloat.eqb k' k); cbn.
    + intros [<-|H] Hc.
      * cbn in Hc. apply in_app_iff in Hc as [Hc|[<-|[]]]; [|now left].
        right. exists (k', v). auto.
      * right. exists kv. auto.
    + intros [<-|H] Hc.
      * right. exists (k', v). auto.
      * destruct (IH H Hc) as [->|(kv' & ? & ?)]; [now left|].
        right. exists kv'. auto.
Qed.

(** The groups of [char_lines] hold characters of the page only. *)
Lemma char_lines_incl (cs : list pdf_char) (kv : float * list pdf_char) (c : pdf_char) :
  In kv (char_lines cs) -> In c (snd kv) -> In c cs.
Proof.
  unfold char_lines.
  assert (G : forall kv c d,
             In kv (fold_left
                      (fun d c => Num.update [] (fun l => l ++ [c])
                                    (Num.round (Num.get0 (c_top c)) 0) d) cs d) ->
             In c (snd kv) ->
             In c cs \/ exists kv', In kv' d /\ In c (snd kv')).
  { clear. induction cs as [|c0 cs IH]; intros kv c d; cbn [fold_left].
    - intros H Hc. right. exists kv. auto.
    - intros H Hc. destruct (IH _ _ _ H Hc) as [?|(kv' & Hkv' & Hc')]; [left; now right|].
      destruct (In_update_append _ _ _ _ _ Hkv' Hc') as [->|?]; [left; now left|now right]. }
  intros H Hc. destruct (G kv c [] H Hc) as [?|(kv' & [] & _)]. assumption.
Qed.

Lemma assemble_line_bold (line_chars : list pdf_char) (li : line_info) :
  assemble_line line_chars = Some li ->
  is_bold li = existsb (fun c => bold_font_name (get_str (c_fontname c))) line_chars.
Proof.
  unfold assemble_line.
  destruct (Py.strip _) as [|t0 ts]; [discriminate|].
  intros [= <-]. cbn [is_bold].
  induction line_chars as [|c0 l IH]; cbn; [reflexivity|].
  now rewrite IH.
Qed.

(** C7, as the code has it.  On a page with character data, every line is
    assembled from one group of characters of the page, and its bold flag is
    true exactly when the font identifier of one of these characters contains
    "Bold" or contains "bold", letter for letter. *)
Theorem assembled_line_bold_flag
  (p : page) (body_size : option float) (li : line_info) :
  chars p <> [] ->
  In li (extract_text_with_formatting p body_size) ->
  exists line_chars : list pdf_char,
    In line_chars (line_groups (chars p))
    /\ incl line_chars (chars p)
    /\ assemble_line line_chars = Some li
    /\ (is_bold li = true <->
        exists (c : pdf_char) (a b : str),
          In c line_chars
          /\ (get_str (c_fontname c) = a ++ Py.lit "Bold" ++ b
              \/ get_str (c_fontname c) = a ++ Py.lit "bold" ++ b)).
Proof.
  intros Hchars Hli.
  unfold extract_text_with_formatting in Hli.
  destruct (extract_text p) as [|t0 ts]; [contradiction|].
  destruct (chars p) as [|c0 cs] eqn:E; [now contradiction Hchars|].
  apply In_filter_map in Hli as (line_chars & Hin & Hasm).
  exists line_chars. split; [exact Hin|]. split; [|split; [exact Hasm|]].
  - unfold line_groups in Hin. apply in_map_iff in Hin as (kv & <- & Hkv).
    apply In_sorted in Hkv. intros x Hx. apply In_sorted in Hx.
    exact (char_lines_incl _ _ _ Hkv Hx).
  - rewrite (assemble_line_bold _ _ Hasm), existsb_exists. unfold bold_font_name.
    split.
    + intros (c & Hc & H). apply orb_true_iff in H.
      rewrite !contains_spec in H. exists c.
      destruct H as [(a & b & H)|(a & b & H)]; exists a, b; auto.
    + intros (c & a & b & Hc & H). exists c. split; [exact Hc|].
      apply orb_true_iff. rewrite !contains_spec.
      destruct H as [H|H]; [left|right]; now exists a, b.
Qed.

Lemma assembled_line_bold_flag_witness :
  exists line_chars : list pdf_char,
    In line_chars (line_groups (chars bold_page))
    /\ incl line_chars (chars bold_page)
    /\ assemble_line line_chars
       = Some {| text := Py.lit "ab"; font_size := Some 12%float; is_bold := true |}
    /\ (true = true <->
        exists (c : pdf_char) (a b : str),
          In c line_chars
          /\ (get_str (c_fontname c) = a ++ Py.lit "Bold" ++ b
              \/ get_str (c_fontname c) = a ++ Py.lit "bold" ++ b)).
Proof.
  apply (assembled_line_bold_flag bold_page None
           {| text := Py.lit "ab"; font_size := Some 12%float; is_bold := true |}).
  - discriminate.
  - left. reflexivity.
Defined.

(** C7 as stated fails: the font identifier contains "bold" when case is
    ignored, and the line is not bold. *)
Lemma capital_bold_not_detected :
  spec_bold_font_name (Py.lit "Arial-BOLD") = true
  /\ extract_text_with_formatting bold_caps_page None
     = [{| text := Py.lit "x"; font_size := Some 12%float; is_bold := false |}].
Proof. split; reflexivity. Qed.

(* ===================================================================== *)
(** * Empty input *)
(* ===================================================================== *)

Lemma process_page_empty (is_decimal : char -> bool) (p : page) body_size :
  extract_text p = [] -> extract_tables p = [] ->
  process_page is_decimal p body_size = [].
Proof.
  intros Ht Htab. unfold process_page, extract_text_with_formatting.
  now rewrite Ht, Htab.
Qed.

(** Pages without blocks add nothing but the blank line after each page
    that is not the last. *)
Lemma compose_empty (is_decimal : char -> bool) (body_size : float) (n : nat)
      (pages : list page) : forall (page_num : nat) (md_output : list str),
  Forall (fun p => extract_text p = [] /\ extract_tables p = []) pages ->
  page_num + length pages = S n ->
  compose is_decimal body_size n page_num pages md_output
  = md_output ++ repeat [] (length pages - 1).
Proof.
  induction pages as [|p pages IH]; intros page_num md_output Hall Hn.
  - cbn. now rewrite app_nil_r.
  - inversion Hall as [|? ? [Ht Htab] Hall']; subst.
    cbn [compose]. rewrite (process_page_empty _ _ _ Ht Htab). cbn [fold_left snd].
    cbn [length] in Hn.
    rewrite IH; [|exact Hall'|lia].
    destruct (page_num <? n) eqn:E.
    + apply Nat.ltb_lt in E. rewrite <- app_assoc. f_equal.
      destruct pages as [|q pages]; cbn [length] in *; [lia|].
      cbn. now rewrite Nat.sub_0_r.
    + apply Nat.ltb_ge in E.
      destruct pages as [|q pages]; cbn [length] in *; [reflexivity|lia].
Qed.

Lemma join_empty_lines (m : nat) :
  Py.join [10%N] (repeat [] m) = repeat 10%N (m - 1).
Proof.
  destruct m as [|m]; [reflexivity|].
  cbn [Nat.sub]. rewrite Nat.sub_0_r.
  induction m as [|m IH]; [reflexivity|].
  change (Py.join [10%N] (repeat [] (S (S m))))
    with (10%N :: Py.join [10%N] (repeat [] (S m))).
  now rewrite IH.
Qed.

(** C9, as the code has it.  A document whose pages have no character, no
    text and no table (a document without pages too) is converted without
    error; the output holds line feeds only, one for each page after the
    second: it is empty for at most two pages. *)
Theorem empty_document_output (is_decimal : char -> bool) (pages : list page) :
  Forall (fun p => chars p = [] /\ extract_text p = [] /\ extract_tables p = []) pages ->
  convert_pdf_to_markdown is_decimal pages = repeat 10%N (length pages - 2)
  /\ (length pages <= 2 -> convert_pdf_to_markdown is_decimal pages = []).
Proof.
  intros Hall.
  assert (E : convert_pdf_to_markdown is_decimal pages = repeat 10%N (length pages - 2)).
  { unfold convert_pdf_to_markdown.
    rewrite compose_empty with (n := length pages).
    - cbn [app]. rewrite join_empty_lines. f_equal. lia.
    - eapply Forall_impl; [|exact Hall]. now intros p (_ & ? & ?).
    - reflexivity. }
  split; [exact E|].
  intros Hle. rewrite E. replace (length pages - 2) with 0 by lia. reflexivity.
Qed.

Lemma empty_document_output_witness :
  convert_pdf_to_markdown Config.basic_latin_digit
    [empty_page; empty_page; empty_page; empty_page]
  = [10%N; 10%N].
Proof.
  apply (empty_document_output Config.basic_latin_digit
           [empty_page; empty_page; empty_page; empty_page]).
  repeat constructor.
Defined.

(** C9 as stated fails: three empty pages give a line feed, not the empty
    string. *)
Lemma three_empty_pages_output :
  convert_pdf_to_markdown Config.basic_latin_digit [empty_page; empty_page; empty_page]
  = [10%N].
Proof. reflexivity. Qed.

(* ===================================================================== *)
(** * The program on small inputs *)
(* ===================================================================== *)

(** Two lines of size 24 and one of size 12 over a body size of 12: two
    headings of level 1, not merged, and a paragraph. *)
Example headings_not_merged :
  blocks_of 12 [sized_line "Title" 24 false; sized_line "Again" 24 false;
                sized_line "body" 12 false]
  = [(Heading, Py.lit "# Title"); (Heading, Py.lit "# Again");
     (Paragraph, Py.lit "body")].
Proof. reflexivity. Qed.

(** A heading-sized line that starts with a bullet sign is a heading and
    keeps the sign. *)
Example heading_wins_over_bullet :
  blocks_of 12 [sized_line "- Title" 18 false]
  = [(Heading, Py.lit "# - Title")].
Proof. reflexivity. Qed.

Example bullets_then_paragraph :
  blocks_of 12 [sized_line "* Alpha" 12 false; sized_line "- Beta" 12 false;
                sized_line "Gamma." 12 false]
  = [(Bullet, Py.lit "- Alpha"); (Bullet, Py.lit "- Beta");
     (Paragraph, Py.lit "Gamma.")].
Proof. reflexivity. Qed.

(** The bullet sign U+2022 needs no space after it. *)
Example bullet_glyph_item :
  blocks_of 12 [{| text := 0x2022%N :: Py.lit "Alpha";
                   font_size := Some 12%float; is_bold := false |}]
  = [(Bullet, Py.lit "- Alpha")].
Proof. reflexivity. Qed.

(** A bullet between two numbered items restarts the count; a short bold
    line is emphasized; a bold line of 100 characters is paragraph text. *)
Example mixed_lines :
  blocks_of 12 [sized_line "4. a" 12 false; sized_line "(9) b" 12 false;
                sized_line "- c" 12 false; sized_line "7) d" 12 false;
                sized_line "Note" 12 true;
                {| text := repeat 120%N 100; font_size := Some 12%float;
                   is_bold := true |}]
  = [(Numbered, Py.lit "1. a"); (Numbered, Py.lit "2. b"); (Bullet, Py.lit "- c");
     (Numbered, Py.lit "1. d"); (Bold, Py.lit "**Note**");
     (Paragraph, repeat 120%N 100)].
Proof. reflexivity. Qed.

(** The count of numbered items starts again on every page, and a blank
    line separates the pages. *)
Example counter_per_page :
  convert_pdf_to_markdown Config.basic_latin_digit
    [text_page (Py.lit "1. First" ++ [10%N] ++ Py.lit "2. Second");
     text_page (Py.lit "1. Third")]
  = Py.lit "1. First" ++ [10%N] ++ Py.lit "2. Second" ++ [10%N; 10%N]
    ++ Py.lit "1. Third".
Proof. reflexivity. Qed.

(** A document whose characters all have size 12 has body size 12.  Of the
    sizes 10, 10.04, 12, 12 and 9.96, rounded to 10, 10, 12, 12 and 10, the
    most frequent is 10. *)
Example body_size_mode :
  estimate_body_size
    [{| extract_text := [];
        chars := [glyph "a" 1 1 ""; glyph "b" 1 2 ""];
        extract_tables := []; find_tables := [] |}]
  = 12%float
  /\ Num.most_common1 (Num.counter (map (fun s => Num.round s 1)
                                       [10; 10.04; 12; 12; 9.96]%float))
     = Some 10%float.
Proof. split; reflexivity. Qed.

(* ===================================================================== *)
(** * Order and equality of floats *)
(* ===================================================================== *)

Ltac sf_order :=
  unfold SFltb, SFleb, SFeqb, SFcompare;
  repeat match goal with
         | x : spec_float |- _ => destruct x as [[|] | [|] | | [|] ? ?]
         end;
  intros;
  change (Pos.compare_cont Eq) with Pos.compare in *;
  repeat match goal with
         | H : context [Z.compare ?a ?b] |- _ => destruct (Z.compare_spec a b)
         | |- context [Z.compare ?a ?b] => destruct (Z.compare_spec a b)
         | H : context [Pos.compare ?a ?b] |- _ => destruct (Pos.compare_spec a b)
         | |- context [Pos.compare ?a ?b] => destruct (Pos.compare_spec a b)
         end;
  cbn in *; subst; try reflexivity; try discriminate; try lia.

Lemma SFltb_asym (x y : spec_float) : SFltb x y = true -> SFltb y x = false.
Proof. sf_order. Qed.

Lemma SFleb_trans (x y z : spec_float) :
  SFleb x y = true -> SFleb y z = true -> SFleb x z = true.
Proof. sf_order. Qed.

Lemma SFeqb_sym (x y : spec_float) : SFeqb x y = SFeqb y x.
Proof. sf_order. Qed.

Lemma SFeqb_trans (x y z : spec_float) :
  SFeqb x y = true -> SFeqb y z = true -> SFeqb x z = true.
Proof. sf_order. Qed.

Lemma ltb_asym (x y : float) : PrimFloat.ltb x y = true -> PrimFloat.ltb y x = false.
Proof. rewrite !FloatAxioms.ltb_spec. apply SFltb_asym. Qed.

Lemma leb_trans (x y z : float) :
  PrimFloat.leb x y = true -> PrimFloat.leb y z = true -> PrimFloat.leb x z = true.
Proof. rewrite !FloatAxioms.leb_spec. apply SFleb_trans. Qed.

Lemma eqb_sym (x y : float) : PrimFloat.eqb x y = PrimFloat.eqb y x.
Proof. rewrite !FloatAxioms.eqb_spec. apply SFeqb_sym. Qed.

Lemma eqb_trans (x y z : float) :
  PrimFloat.eqb x y = true -> PrimFloat.eqb y z = true -> PrimFloat.eqb x z = true.
Proof. rewrite !FloatAxioms.eqb_spec. apply SFeqb_trans. Qed.

(** Two numbers equal to a third compare alike with any other. *)
Lemma eqb_congr (x y r : float) :
  PrimFloat.eqb x y = true -> PrimFloat.eqb x r = PrimFloat.eqb y r.
Proof.
  intros H. destruct (PrimFloat.eqb y r) eqn:E.
  - exact (eqb_trans _ _ _ H E).
  - destruct (PrimFloat.eqb x r) eqn:E'; [|reflexivity].
    rewrite eqb_sym in H. now rewrite (eqb_trans _ _ _ H E') in E.
Qed.

(* ===================================================================== *)
(** * Typography sampler *)
(* ===================================================================== *)

Lemma occurrences_app (r : float) (xs ys : list float) :
  occurrences r (xs ++ ys) = occurrences r xs + occurrences r ys.
Proof. unfold occurrences. now rewrite filter_app, length_app. Qed.

Lemma occurrences_zero (r : float) (xs : list float) :
  (forall x, In x xs -> PrimFloat.eqb x r = false) -> occurrences r xs = 0.
Proof.
  unfold occurrences. induction xs as [|x xs IH]; intros H; cbn; [reflexivity|].
  rewrite (H x) by now left. apply IH. intros y Hy. apply H. now right.
Qed.

Lemma occurrences_congr (k r : float) (xs : list float) :
  PrimFloat.eqb k r = true -> occurrences k xs = occurrences r xs.
Proof.
  intros H. unfold occurrences. induction xs as [|x xs IH]; cbn; [reflexivity|].
  rewrite (eqb_sym x k), (eqb_sym x r), (eqb_congr k r x H).
  destruct (PrimFloat.eqb r x); cbn; now rewrite IH.
Qed.

(** The entries of a counter after one more element [x], when the keys are
    pairwise different. *)
Lemma In_update_count (x : float) (d : list (float * nat)) (k : float) (n : nat) :
  distinct_keys d ->
  In (k, n) (Num.update 0 S x d) ->
  (In (k, n) d /\ PrimFloat.eqb k x = false)
  \/ (exists n0, In (k, n0) d /\ PrimFloat.eqb k x = true /\ n = S n0)
  \/ ((k, n) = (x, 1) /\ forall kv, In kv d -> PrimFloat.eqb (fst kv) x = false).
Proof.
  unfold distinct_keys.
  induction d as [|[k' v] d IH]; cbn [Num.update map fst]; intros Hd Hin.
  - destruct Hin as [<-|[]]. right; right. split; [reflexivity|]. intros kv [].
  - inversion Hd as [|? ? Hk' Hd']; subst.
    destruct (PrimFloat.eqb k' x) eqn:E.
    + destruct Hin as [[= <- <-]|Hin].
      * right; left. exists v. repeat split; auto. now left.
      * left. split; [now right|].
        rewrite Forall_forall in Hk'.
        assert (Hkk : PrimFloat.eqb k' k = false)
          by (apply Hk'; apply in_map_iff; now exists (k, n)).
        destruct (PrimFloat.eqb k x) eqn:E'; [|reflexivity].
        rewrite eqb_sym in E'. now rewrite (eqb_trans _ _ _ E E') in Hkk.
    + destruct Hin as [[= <- <-]|Hin].
      * left. split; [now left|exact E].
      * destruct (IH Hd' Hin) as [(H1 & H2)|[(n0 & H1 & H2 & H3)|(H1 & H2)]].
        -- left. split; [now right|exact H2].
        -- right; left. exists n0. repeat split; auto. now right.
        -- right; right. split; [exact H1|].
           intros kv [<-|Hkv]; [exact E|now apply H2].
Qed.

(** One more element adds no key, or adds itself as the last key when it
    differs from every key. *)
Lemma update_keys (x : float) (d : list (float * nat)) :
  map fst (Num.update 0 S x d) = map fst d
  \/ (map fst (Num.update 0 S x d) = map fst d ++ [x]
      /\ forall k, In k (map fst d) -> PrimFloat.eqb k x = false).
Proof.
  induction d as [|[k' v] d IH]; simpl.
  - right. split; [reflexivity|]. intros k [].
  - destruct (PrimFloat.eqb k' x) eqn:E; simpl; [now left|].
    destruct IH as [IH|[IH H]]; rewrite IH; [now left|right].
    split; [reflexivity|]. intros k [<-|Hk]; [exact E|now apply H].
Qed.

(** Every element is counted under a key equal to it. *)
Lemma update_covers (x : float) (d : list (float * nat)) :
  PrimFloat.eqb x x = true ->
  (exists k n, In (k, n) (Num.update 0 S x d) /\ PrimFloat.eqb k x = true)
  /\ (forall k n, In (k, n) d -> exists n', In (k, n') (Num.update 0 S x d)).
Proof.
  intros Hx. induction d as [|[k' v] d [(k & n & Hin & Hk) IH]]; cbn [Num.update].
  - split; [exists x, 1; split; [now left|exact Hx]|]. intros k n [].
  - destruct (PrimFloat.eqb k' x) eqn:E.
    + split; [exists k', (S v); split; [now left|exact E]|].
      intros k0 n0 [[= <- <-]|H]; [exists (S v); now left|exists n0; now right].
    + split; [exists k, n; split; [now right|exact Hk]|].
      intros k0 n0 [[= <- <-]|H]; [exists v; now left|].
      destruct (IH _ _ H) as (n' & Hn'). exists n'. now right.
Qed.

Lemma counts_update (d : list (float * nat)) (xs : list float) (x : float) :
  PrimFloat.eqb x x = true ->
  counts d xs -> counts (Num.update 0 S x d) (xs ++ [x]).
Proof.
  intros Hx (Hent & Hcov & Hdist).
  assert (Hocc : forall k, occurrences k (xs ++ [x])
                           = occurrences k xs + (if PrimFloat.eqb k x then 1 else 0)).
  { intros k. rewrite occurrences_app. unfold occurrences at 2. cbn.
    rewrite (eqb_sym x k). now destruct (PrimFloat.eqb k x). }
  split; [|split].
  - intros k n Hin. rewrite Hocc, in_app_iff.
    destruct (In_update_count _ _ _ _ Hdist Hin)
      as [(H1 & H2)|[(n0 & H1 & H2 & ->)|([= -> ->] & H2)]].
    + destruct (Hent _ _ H1) as (? & ->). rewrite H2. split; [auto|lia].
    + destruct (Hent _ _ H1) as (? & ->). rewrite H2. split; [auto|lia].
    + rewrite Hx. split; [right; now left|].
      rewrite occurrences_zero; [reflexivity|].
      intros y Hy. destruct (Hcov y Hy) as (k & n & Hkn & Hky).
      specialize (H2 _ Hkn). cbn in H2.
      destruct (PrimFloat.eqb y x) eqn:E; [|reflexivity].
      now rewrite (eqb_trans _ _ _ Hky E) in H2.
  - intros y Hy. destruct (update_covers x d Hx) as [(k & n & Hkn & Hk) Hkeep].
    apply in_app_iff in Hy as [Hy|[<-|[]]]; [|now exists k, n].
    destruct (Hcov y Hy) as (k0 & n0 & H0 & Hk0).
    destruct (Hkeep _ _ H0) as (n' & Hn'). now exists k0, n'.
  - unfold distinct_keys in *.
    destruct (update_keys x d) as [->|[-> Hnew]]; [exact Hdist|].
    clear -Hdist Hnew. induction Hdist as [|a l Ha Hl IH]; cbn.
    + repeat constructor.
    + constructor.
      * apply Forall_app. split; [exact Ha|].
        constructor; [|constructor]. apply Hnew. now left.
      * apply IH. intros k Hk. apply Hnew. now right.
Qed.

Lemma counts_counter (xs : list float) :
  Forall (fun x => PrimFloat.eqb x x = true) xs -> counts (Num.counter xs) xs.
Proof.
  unfold Num.counter. intros Hxs.
  enough (G : forall ys d zs, Forall (fun x => PrimFloat.eqb x x = true) ys ->
                counts d zs ->
                counts (fold_left (fun d x => Num.update 0 S x d) ys d) (zs ++ ys)).
  { apply (G xs [] [] Hxs). split; [intros k n []|split; [intros x []|constructor]]. }
  induction ys as [|y ys IH]; intros d zs Hys Hd; cbn [fold_left].
  - now rewrite app_nil_r.
  - inversion Hys as [|? ? Hy Hys']; subst.
    replace (zs ++ y :: ys) with ((zs ++ [y]) ++ ys) by now rewrite <- app_assoc.
    apply IH; [exact Hys'|]. now apply counts_update.
Qed.

(** The entry chosen has the largest count. *)
Lemma most_common_from_max (d : list (float * nat)) : forall best : float * nat,
  exists n,
    In (Num.most_common_from best d, n) (best :: d)
    /\ forall k' n', In (k', n') (best :: d) -> n' <= n.
Proof.
  induction d as [|[k0 n0] d IH]; intros [k n]; cbn [Num.most_common_from snd].
  - exists n. split; [now left|]. intros k' n' [[= <- <-]|[]]. lia.
  - destruct (n <? n0) eqn:E;
      [apply Nat.ltb_lt in E|apply Nat.ltb_ge in E].
    + destruct (IH (k0, n0)) as (m & Hin & Hmax). exists m. split.
      * right. exact Hin.
      * intros k' n' [H|H]; [|now apply (Hmax k' n')].
        injection H as <- <-. specialize (Hmax k0 n0 (or_introl eq_refl)). lia.
    + destruct (IH (k, n)) as (m & Hin & Hmax). exists m. split.
      * destruct Hin as [H|H]; [left|right; right]; exact H.
      * intros k' n' [H|[H|H]].
        -- apply (Hmax k' n'). left. exact H.
        -- injection H as <- <-. specialize (Hmax k n (or_introl eq_refl)). lia.
        -- apply (Hmax k' n'). right. exact H.
Qed.

Lemma counter_not_empty (xs : list float) : xs <> [] -> Num.counter xs <> [].
Proof.
  assert (U : forall x d, Num.update 0 S x d <> []).
  { intros x [|[k v] d]; cbn; [discriminate|].
    destruct (PrimFloat.eqb k x); discriminate. }
  assert (F : forall ys d, d <> [] ->
                fold_left (fun d x => Num.update 0 S x d) ys d <> []).
  { induction ys as [|y ys IH]; intros d Hd; cbn; [exact Hd|]. apply IH, U. }
  destruct xs as [|x xs]; [congruence|]. intros _.
  unfold Num.counter. cbn [fold_left]. apply F, U.
Qed.

Lemma sizes_of_empty (cs : list pdf_char) :
  sizes_of cs = [] <-> Forall (fun c => truthy (c_size c) = false) cs.
Proof.
  unfold sizes_of. induction cs as [|c cs IH]; cbn.
  - split; auto.
  - destruct (truthy (c_size c)) eqn:E; cbn.
    + split; [discriminate|]. intros H. inversion H. congruence.
    + rewrite IH. split; [now constructor|]. intros H. now inversion H.
Qed.

Lemma sizes_of_app (cs cs' : list pdf_char) :
  sizes_of (cs ++ cs') = sizes_of cs ++ sizes_of cs'.
Proof. unfold sizes_of. now rewrite filter_app, map_app. Qed.

Lemma sizes_of_pooled (pages : list page) :
  sizes_of (flat_map chars pages) = flat_map (fun p => sizes_of (chars p)) pages.
Proof.
  induction pages as [|p pages IH]; cbn [flat_map]; [reflexivity|].
  now rewrite sizes_of_app, IH.
Qed.

(** X1. [extract_font_sizes] gives no body size exactly when no character of
    the page has a size that counts as true (a page without characters, or
    characters whose size is missing or zero). *)
Theorem extract_font_sizes_none (p : page) :
  extract_font_sizes p = None
  <-> Forall (fun c => truthy (c_size c) = false) (chars p).
Proof.
  unfold extract_font_sizes. rewrite <- sizes_of_empty.
  destruct (chars p) as [|c cs]; [split; reflexivity|].
  destruct (sizes_of (c :: cs)) as [|s sizes] eqn:E; [split; reflexivity|].
  split; [|discriminate]. intros H. exfalso.
  unfold Num.most_common1 in H.
  destruct (Num.counter _) eqn:Ec; [|discriminate].
  revert Ec. apply counter_not_empty. discriminate.
Qed.

(** X2. The body size of a document is the body size [extract_font_sizes]
    finds on the characters of all its pages taken together, and 12 when
    it finds none. *)
Theorem estimate_body_size_pooled (pages : list page) :
  estimate_body_size pages =
    match extract_font_sizes (pooled_page pages) with
    | Some body_size => body_size
    | None => 12%float
    end.
Proof.
  unfold estimate_body_size, extract_font_sizes, pooled_page. cbn [chars].
  cbv zeta. rewrite <- sizes_of_pooled.
  destruct (flat_map chars pages) as [|c cs] eqn:E; [reflexivity|].
  destruct (sizes_of (c :: cs)); reflexivity.
Qed.

(** X3. When some character has a size and no rounded size is a NaN, the
    body size of the document is one of the rounded sizes, and no number
    occurs more often among the rounded sizes than the body size does. *)
Theorem body_size_is_mode (pages : list page) :
  rounded_sizes pages <> [] ->
  Forall (fun r => PrimFloat.eqb r r = true) (rounded_sizes pages) ->
  In (estimate_body_size pages) (rounded_sizes pages)
  /\ forall r : float,
       occurrences r (rounded_sizes pages)
       <= occurrences (estimate_body_size pages) (rounded_sizes pages).
Proof.
  intros Hne Hnan. unfold estimate_body_size. cbv zeta.
  fold (rounded_sizes pages).
  destruct (flat_map (fun p => sizes_of (chars p)) pages) as [|s0 ss] eqn:Es.
  { unfold rounded_sizes in Hne. rewrite Es in Hne. now contradiction Hne. }
  destruct (counts_counter _ Hnan) as (Hent & Hcov & _).
  pose proof (counter_not_empty _ Hne) as Hc.
  destruct (Num.counter (rounded_sizes pages)) as [|kv d]; [now contradiction Hc|].
  cbn [Num.most_common1].
  destruct (most_common_from_max d kv) as (n & Hin & Hmax).
  destruct (Hent _ _ Hin) as (Hm & ->). split; [exact Hm|].
  intros r.
  destruct (occurrences r (rounded_sizes pages)) as [|o] eqn:Eo; [lia|].
  assert (Hx : exists x, In x (rounded_sizes pages) /\ PrimFloat.eqb x r = true).
  { unfold occurrences in Eo.
    destruct (filter _ _) as [|x l] eqn:Ef; [discriminate Eo|].
    assert (Hf : In x (filter (fun x => PrimFloat.eqb x r) (rounded_sizes pages)))
      by (rewrite Ef; now left).
    apply filter_In in Hf. now exists x. }
  destruct Hx as (x & Hx & Hxr).
  destruct (Hcov x Hx) as (k & nk & Hk & Hkx).
  destruct (Hent _ _ Hk) as (_ & ->).
  rewrite <- Eo, <- (occurrences_congr k r) by exact (eqb_trans _ _ _ Hkx Hxr).
  exact (Hmax _ _ Hk).
Qed.

Lemma body_size_is_mode_witness :
  In (estimate_body_size [sizes_page]) (rounded_sizes [sizes_page])
  /\ forall r : float,
       occurrences r (rounded_sizes [sizes_page])
       <= occurrences (estimate_body_size [sizes_page]) (rounded_sizes [sizes_page]).
Proof.
  apply (body_size_is_mode [sizes_page]).
  - vm_compute. discriminate.
  - vm_compute. repeat constructor.
Defined.

(** X4. A heading level is one of 1, 2 and 3, and there is one only when
    both the size of the line and the body size are present and not zero:
    the ratio is never taken over a missing or zero body size. *)
Theorem heading_level_range (font_size body_size : option float) (level : nat) :
  get_heading_level font_size body_size = Some level ->
  (level = 1 \/ level = 2 \/ level = 3)
  /\ truthy font_size = true /\ truthy body_size = true.
Proof.
  unfold get_heading_level.
  destruct (truthy body_size), (truthy font_size); cbn [negb orb]; try discriminate.
  destruct font_size as [f|], body_size as [b|]; try discriminate.
  cbv zeta.
  destruct (PrimFloat.leb Config.h1 _); [intros [= <-]; auto|].
  destruct (PrimFloat.leb Config.h2 _); [intros [= <-]; auto|].
  destruct (PrimFloat.leb Config.h3 _); [intros [= <-]; auto|discriminate].
Qed.

Lemma heading_level_range_witness :
  (2 = 1 \/ 2 = 2 \/ 2 = 3)
  /\ truthy (Some 13%float) = true /\ truthy (Some 10%float) = true.
Proof. apply (heading_level_range (Some 13%float) (Some 10%float) 2). reflexivity. Defined.

(** X5. Heading levels follow the computed ratio: over positive body sizes,
    a line whose ratio is at least that of a heading line is a heading too,
    of the same level or of one nearer to 1. *)
Theorem heading_level_monotone (f1 b1 f2 b2 : float) (level1 : nat) :
  PrimFloat.ltb 0 b1 = true ->
  PrimFloat.ltb 0 b2 = true ->
  PrimFloat.leb (PrimFloat.div f1 b1) (PrimFloat.div f2 b2) = true ->
  get_heading_level (Some f1) (Some b1) = Some level1 ->
  exists level2,
    get_heading_level (Some f2) (Some b2) = Some level2 /\ level2 <= level1.
Proof.
  intros Hb1 Hb2 Hle.
  rewrite !get_heading_level_ratio by assumption. unfold level_of_ratio.
  set (r1 := PrimFloat.div f1 b1) in *. set (r2 := PrimFloat.div f2 b2) in *.
  assert (T : forall h, PrimFloat.leb h r1 = true -> PrimFloat.leb h r2 = true)
    by (intros h H; exact (leb_trans _ _ _ H Hle)).
  destruct (PrimFloat.leb Config.h1 r1) eqn:E1;
    [|destruct (PrimFloat.leb Config.h2 r1) eqn:E2;
      [|destruct (PrimFloat.leb Config.h3 r1) eqn:E3; [|discriminate]]];
    intros [= <-];
    try rewrite (T _ E1); try rewrite (T _ E2); try rewrite (T _ E3);
    repeat match goal with
           | |- context [if ?c then _ else _] => destruct c
           end;
    eexists; (split; [reflexivity|lia]).
Qed.

Lemma heading_level_monotone_witness :
  exists level2,
    get_heading_level (Some 18%float) (Some 12%float) = Some level2 /\ level2 <= 2.
Proof.
  apply (heading_level_monotone 13 10 18 12 2); reflexivity.
Defined.

(* ===================================================================== *)
(** * Text of lines and list items *)
(* ===================================================================== *)

Lemma lstrip_suffix (s : str) : exists a, s = a ++ Py.lstrip s.
Proof.
  induction s as [|c s (a & IH)]; [now exists []|]. cbn.
  destruct (Py.is_space c); [|now exists []].
  exists (c :: a). cbn. now rewrite <- IH.
Qed.

Lemma lstrip_head (s : str) (c : char) (s' : str) :
  Py.lstrip s = c :: s' -> Py.is_space c = false.
Proof.
  induction s as [|x s IH]; cbn; [discriminate|].
  destruct (Py.is_space x) eqn:E; [exact IH|]. now intros [= <- _].
Qed.

Lemma lstrip_fixed (s : str) :
  (forall c s', s = c :: s' -> Py.is_space c = false) -> Py.lstrip s = s.
Proof.
  destruct s as [|c s]; [reflexivity|]. intros H. cbn.
  now rewrite (H c s eq_refl).
Qed.

Lemma rstrip_prefix (s : str) : exists b, s = Py.rstrip s ++ b.
Proof.
  unfold Py.rstrip. destruct (lstrip_suffix (rev s)) as (a & H).
  exists (rev a). rewrite <- rev_app_distr, <- H. now rewrite rev_involutive.
Qed.

Lemma rstrip_last (s : str) (c : char) (s' : str) :
  Py.rstrip s = s' ++ [c] -> Py.is_space c = false.
Proof.
  unfold Py.rstrip. intros H. apply (f_equal (@rev char)) in H.
  rewrite rev_involutive, rev_app_distr in H. cbn in H.
  exact (lstrip_head _ _ _ H).
Qed.

(** [s.strip()] neither starts nor ends with white space. *)
Lemma strip_trimmed (s : str) : trimmed (Py.strip s).
Proof.
  unfold Py.strip. split.
  - intros c s' H. destruct (rstrip_prefix (Py.lstrip s)) as (b & Hb).
    rewrite H in Hb. cbn in Hb. exact (lstrip_head _ _ _ Hb).
  - intros c s' H. exact (rstrip_last _ _ _ H).
Qed.

(** A string that neither starts nor ends with white space is its own
    [strip()]. *)
Lemma strip_fixed (s : str) : trimmed s -> Py.strip s = s.
Proof.
  intros [Hh Hl]. unfold Py.strip, Py.rstrip.
  rewrite (lstrip_fixed s Hh).
  rewrite lstrip_fixed; [apply rev_involutive|].
  intros c s' H. apply (Hl c (rev s')).
  rewrite <- (rev_involutive s), H. cbn. reflexivity.
Qed.

Lemma star_total (cls : char -> bool) (rest : str -> option str) (s : str) :
  (forall t, rest t <> None) -> Re.star cls rest s <> None.
Proof.
  intros H. induction s as [|c s IH]; cbn; [apply H|].
  destruct (cls c); [|apply H].
  destruct (Re.star cls rest s); [discriminate|apply H].
Qed.

(** [cls*] at the end of a pattern, on a string that does not start with a
    character of the class, takes nothing. *)
Lemma star_end_skip (cls : char -> bool) (s : str) :
  (forall c s', s = c :: s' -> cls c = false) ->
  Re.star cls (Re.match_here []) s = Some s.
Proof.
  destruct s as [|c s]; [reflexivity|]. intros H. cbn.
  now rewrite (H c s eq_refl).
Qed.

(** X6. The text of a bullet block reads back as a bullet item with the
    same item text: for every line text, the block content "- " + item is
    itself matched by the bullet patterns, and cleaning it gives the item
    again. *)
Theorem bullet_part_reads_back (t : str) :
  is_bullet_list (snd (bullet_part t)) = true
  /\ clean_bullet_text (snd (bullet_part t)) = clean_bullet_text t.
Proof.
  unfold bullet_part. cbn [snd].
  set (item := clean_bullet_text t).
  assert (Ht : trimmed item) by apply strip_trimmed.
  assert (Hm : Re.match_here [Re.Star Py.is_space; Re.One Config.dash_or_star;
                              Re.Plus Py.is_space] (Py.lit "- " ++ item)
               = Some item).
  { cbn. apply star_end_skip. apply Ht. }
  split.
  - unfold is_bullet_list, Config.bullet_patterns. cbn [existsb].
    unfold Re.matches at 2. rewrite Hm. apply orb_true_r.
  - unfold clean_bullet_text at 1, Config.bullet_patterns. cbn [fold_left].
    assert (H1 : Re.sub_empty [Re.Star Py.is_space; Re.One Config.bullet_glyph;
                               Re.Star Py.is_space] (Py.lit "- " ++ item)
                 = Py.lit "- " ++ item) by reflexivity.
    rewrite H1. unfold Re.sub_empty. rewrite Hm. now apply strip_fixed.
Qed.

(** X7. A line that begins with "-" or "*" is a bullet item exactly when
    white space follows the sign, and a line that begins with one of the
    bullet glyphs always is. *)
Theorem bullet_sign_needs_space (c : char) (s : str) :
  (Config.dash_or_star c = true ->
   (is_bullet_list (c :: s) = true
    <-> exists d s', s = d :: s' /\ Py.is_space d = true))
  /\ (Config.bullet_glyph c = true -> is_bullet_list (c :: s) = true).
Proof.
  split.
  - intros Hc.
    assert (Hc' : c = 45%N \/ c = 42%N).
    { unfold Config.dash_or_star, Py.char_in in Hc. cbn in Hc.
      rewrite !orb_true_iff, !N.eqb_eq in Hc. intuition discriminate. }
    unfold is_bullet_list, Config.bullet_patterns. cbn [existsb].
    rewrite orb_false_r, orb_true_iff. unfold Re.matches.
    destruct Hc' as [-> | ->]; cbn.
    all: destruct s as [|d s']; cbn.
    all: try (split; [intros [H|H]; discriminate H|intros (? & ? & H & _); discriminate H]).
    all: destruct (Py.is_space d) eqn:Ed.
    all: try (split; [intros [H|H]; discriminate H
                     |intros (? & ? & [= <- <-] & H); congruence]).
    all: split; [intros _; now exists d, s'|intros _; right].
    all: match goal with
         | |- context [Re.star ?cl ?r ?u] =>
             destruct (Re.star cl r u) eqn:E;
             [reflexivity|exfalso; revert E; apply star_total; discriminate]
         end.
  - intros Hc.
    assert (Hs : Py.is_space c = false).
    { unfold Config.bullet_glyph, Py.char_in in Hc. cbn in Hc.
      rewrite !orb_true_iff, !N.eqb_eq in Hc.
      repeat destruct Hc as [Hc|Hc]; try discriminate Hc; subst; reflexivity. }
    unfold is_bullet_list, Config.bullet_patterns. cbn [existsb].
    apply orb_true_iff. left. unfold Re.matches. cbn [Re.match_here Re.star].
    rewrite Hs, Hc.
    match goal with
    | |- context [Re.star ?cl ?r ?u] =>
        destruct (Re.star cl r u) eqn:E;
        [reflexivity|exfalso; revert E; apply star_total; discriminate]
    end.
Qed.

(** X8. Every line [extract_text_with_formatting] returns has a text that is
    not empty and neither starts nor ends with white space, on pages with
    character data and on pages without. *)
Theorem extracted_line_text (p : page) (body_size : option float) (li : line_info) :
  In li (extract_text_with_formatting p body_size) ->
  text li <> []
  /\ (forall c s, text li = c :: s -> Py.is_space c = false)
  /\ (forall c s, text li = s ++ [c] -> Py.is_space c = false).
Proof.
  intros Hli.
  enough (G : exists s, text li = Py.strip s /\ text li <> []).
  { destruct G as (s & E & Hne). split; [exact Hne|]. rewrite E. apply strip_trimmed. }
  unfold extract_text_with_formatting in Hli.
  destruct (extract_text p) as [|t0 ts]; [contradiction|].
  destruct (chars p) as [|c0 cs].
  - unfold plain_lines in Hli. apply In_filter_map in Hli as (line & _ & H).
    exists line. destruct (Py.strip line) as [|x xs] eqn:E; [discriminate|].
    injection H as <-. cbn. split; [reflexivity|discriminate].
  - apply In_filter_map in Hli as (line_chars & _ & H).
    unfold assemble_line in H.
    exists (concat (map (fun c => get_str (c_text c)) line_chars)).
    destruct (Py.strip _) as [|x xs] eqn:E; [discriminate|].
    injection H as <-. cbn. split; [reflexivity|discriminate].
Qed.

Lemma extracted_line_text_witness :
  text (plain_line (Py.lit "1. a")) <> []
  /\ (forall c s, text (plain_line (Py.lit "1. a")) = c :: s -> Py.is_space c = false)
  /\ (forall c s, text (plain_line (Py.lit "1. a")) = s ++ [c] -> Py.is_space c = false).
Proof.
  apply (extracted_line_text numbered_page None (plain_line (Py.lit "1. a"))).
  right. left. reflexivity.
Defined.

(* ===================================================================== *)
(** * Line assembler: grouping and order *)
(* ===================================================================== *)

Lemma insert_perm {A} (key : A -> float) (x : A) (l : list A) :
  Permutation (Num.insert key x l) (x :: l).
Proof.
  induction l as [|y l IH]; cbn; [reflexivity|].
  destruct (PrimFloat.ltb (key y) (key x)); [|reflexivity].
  rewrite IH. apply perm_swap.
Qed.

(** Sorting rearranges, and neither drops nor repeats. *)
Lemma sorted_perm {A} (key : A -> float) (l : list A) :
  Permutation (Num.sorted key l) l.
Proof.
  induction l as [|x l IH]; cbn; [reflexivity|].
  rewrite insert_perm. now constructor.
Qed.

Lemma insert_ascending {A} (key : A -> float) (x : A) (l : list A) :
  ascending (map key l) -> ascending (map key (Num.insert key x l)).
Proof.
  unfold ascending.
  induction l as [|y l IH]; intros H; cbn.
  - repeat constructor.
  - inversion H as [|? ? Hs Hh]; subst.
    destruct (PrimFloat.ltb (key y) (key x)) eqn:E; cbn [map].
    + constructor; [now apply IH|].
      destruct l as [|z l]; cbn.
      * constructor. now apply ltb_asym.
      * inversion Hh; subst.
        destruct (PrimFloat.ltb (key z) (key x)); constructor;
          [assumption|now apply ltb_asym].
    + constructor; [exact H|]. constructor. exact E.
Qed.

(** [sorted] puts the keys in ascending order. *)
Lemma sorted_ascending {A} (key : A -> float) (l : list A) :
  ascending (map key (Num.sorted key l)).
Proof.
  induction l as [|x l IH]; cbn; [constructor|].
  now apply insert_ascending.
Qed.

Lemma update_append_perm (c : pdf_char) (k : float) (d : list (float * list pdf_char)) :
  Permutation (concat (map snd (Num.update [] (fun l => l ++ [c]) k d)))
              (concat (map snd d) ++ [c]).
Proof.
  induction d as [|[k' v] d IH]; cbn; [reflexivity|].
  destruct (PrimFloat.eqb k' k); cbn.
  - rewrite <- !app_assoc. apply Permutation_app_head, Permutation_app_comm.
  - rewrite IH. now rewrite app_assoc.
Qed.

Lemma char_lines_perm (cs : list pdf_char) :
  Permutation (concat (map snd (char_lines cs))) cs.
Proof.
  unfold char_lines.
  enough (G : forall d,
             Permutation
               (concat (map snd
                  (fold_left
                     (fun d c => Num.update [] (fun l => l ++ [c])
                                   (Num.round (Num.get0 (c_top c)) 0) d) cs d)))
               (concat (map snd d) ++ cs)) by exact (G []).
  induction cs as [|c cs IH]; intros d; cbn [fold_left].
  - now rewrite app_nil_r.
  - rewrite IH, update_append_perm, <- app_assoc. reflexivity.
Qed.

Lemma update_append_groups (c : pdf_char) (k : float) (d : list (float * list pdf_char)) :
  Forall (fun kv => snd kv <> []) d ->
  Forall (fun kv => snd kv <> []) (Num.update [] (fun l => l ++ [c]) k d).
Proof.
  induction d as [|[k' v] d IH]; intros H; cbn.
  - constructor; [discriminate|constructor].
  - inversion H as [|? ? Hv Hd]; subst.
    destruct (PrimFloat.eqb k' k); constructor; auto.
    cbn. now destruct v.
Qed.

Lemma char_lines_groups (cs : list pdf_char) :
  Forall (fun kv => snd kv <> []) (char_lines cs).
Proof.
  unfold char_lines.
  enough (G : forall d, Forall (fun kv : float * list pdf_char => snd kv <> []) d ->
             Forall (fun kv => snd kv <> [])
               (fold_left
                  (fun d c => Num.update [] (fun l => l ++ [c])
                                (Num.round (Num.get0 (c_top c)) 0) d) cs d))
    by (apply G; constructor).
  induction cs as [|c cs IH]; intros d Hd; cbn [fold_left]; [exact Hd|].
  apply IH. now apply update_append_groups.
Qed.

Lemma concat_map_perm {A B} (f : A -> list B) (l l' : list A) :
  Permutation l l' -> Permutation (concat (map f l)) (concat (map f l')).
Proof.
  induction 1; cbn.
  - reflexivity.
  - now apply Permutation_app_head.
  - rewrite !app_assoc. apply Permutation_app_tail, Permutation_app_comm.
  - etransitivity; eassumption.
Qed.

(** X9. The line groups of a page divide its characters: put together, the
    groups hold every character of the page exactly as often as the page
    does, and no group is empty. *)
Theorem line_groups_partition (cs : list pdf_char) :
  Permutation (concat (line_groups cs)) cs
  /\ Forall (fun line_chars => line_chars <> []) (line_groups cs).
Proof.
  unfold line_groups. split.
  - rewrite <- (char_lines_perm cs) at 2.
    rewrite (concat_map_perm _ _ _ (sorted_perm fst (char_lines cs))).
    generalize (char_lines cs). intros d.
    induction d as [|kv d IH]; cbn; [reflexivity|].
    now rewrite sorted_perm, IH.
  - apply Forall_forall. intros g Hg.
    apply in_map_iff in Hg as (kv & <- & Hkv). apply In_sorted in Hkv.
    pose proof (char_lines_groups cs) as H. rewrite Forall_forall in H.
    specialize (H kv Hkv). intros E. apply H.
    pose proof (sorted_perm (fun c => Num.get0 (c_x0 c)) (snd kv)) as P.
    rewrite E in P. now apply Permutation_nil in P.
Qed.

Lemma update_append_key (c0 : pdf_char) (k : float) (d : list (float * list pdf_char))
      (kv : float * list pdf_char) (c : pdf_char) :
  In kv (Num.update [] (fun l => l ++ [c0]) k d) -> In c (snd kv) ->
  (c = c0 /\ (fst kv = k \/ PrimFloat.eqb (fst kv) k = true))
  \/ exists kv', In kv' d /\ fst kv' = fst kv /\ In c (snd kv').
Proof.
  induction d as [|[k' v] d IH]; cbn.
  - intros [<-|[]]. cbn. intros [<-|[]]. left. auto.
  - destruct (PrimFloat.eqb k' k) eqn:E; cbn.
    + intros [<-|H] Hc.
      * cbn in Hc. apply in_app_iff in Hc as [Hc|[<-|[]]]; [|left; auto].
        right. exists (k', v). auto.
      * right. exists kv. auto.
    + intros [<-|H] Hc.
      * right. exists (k', v). auto.
      * destruct (IH H Hc) as [?|(kv' & ? & ? & ?)]; [now left|].
        right. exists kv'. auto.
Qed.

(** Every character of a group of [char_lines] has the key of the group as
    its rounded top, up to equality of numbers. *)
Lemma char_lines_key (cs : list pdf_char) (kv : float * list pdf_char) (c : pdf_char) :
  In kv (char_lines cs) -> In c (snd kv) ->
  fst kv = rounded_top c \/ PrimFloat.eqb (fst kv) (rounded_top c) = true.
Proof.
  unfold char_lines, rounded_top.
  assert (G : forall kv c d,
             In kv (fold_left
                      (fun d c => Num.update [] (fun l => l ++ [c])
                                    (Num.round (Num.get0 (c_top c)) 0) d) cs d) ->
             In c (snd kv) ->
             (fst kv = Num.round (Num.get0 (c_top c)) 0
              \/ PrimFloat.eqb (fst kv) (Num.round (Num.get0 (c_top c)) 0) = true)
             \/ exists kv', In kv' d /\ fst kv' = fst kv /\ In c (snd kv')).
  { clear. induction cs as [|c0 cs IH]; intros kv c d; cbn [fold_left].
    - intros H Hc. right. exists kv. auto.
    - intros H Hc. destruct (IH _ _ _ H Hc) as [?|(kv' & Hkv' & Hk & Hc')]; [now left|].
      destruct (update_append_key _ _ _ _ _ Hkv' Hc') as [(-> & Hkey)|(kv'' & ? & ? & ?)].
      + left. now rewrite <- Hk.
      + right. exists kv''. repeat split; auto. congruence. }
  intros H Hc. destruct (G kv c [] H Hc) as [?|(kv' & [] & _)]. assumption.
Qed.

(** X10. Lines are assembled top to bottom and left to right: the line
    groups come with keys in ascending order, the key of a group being the
    rounded top of each of its characters (up to equality of numbers), and
    inside every group the characters are in ascending order of [x0]. *)
Theorem line_groups_order (cs : list pdf_char) :
  exists keys : list float,
    ascending keys
    /\ Forall2 (fun k line_chars =>
                  forall c, In c line_chars ->
                            k = rounded_top c \/ PrimFloat.eqb k (rounded_top c) = true)
               keys (line_groups cs)
    /\ Forall (fun line_chars =>
                 ascending (map (fun c => Num.get0 (c_x0 c)) line_chars))
              (line_groups cs).
Proof.
  exists (map fst (Num.sorted fst (char_lines cs))). split; [|split].
  - apply sorted_ascending.
  - unfold line_groups.
    assert (H : Forall (fun kv => In kv (char_lines cs))
                       (Num.sorted fst (char_lines cs)))
      by (apply Forall_forall; intros kv; apply In_sorted).
    induction H as [|kv l Hkv _ IH]; cbn; constructor; [|exact IH].
    intros c Hc. apply In_sorted in Hc. exact (char_lines_key _ _ _ Hkv Hc).
  - unfold line_groups. apply Forall_forall. intros g Hg.
    apply in_map_iff in Hg as (kv & <- & _). apply sorted_ascending.
Qed.

(* ===================================================================== *)
(** * Table serializer: reading a fragment back *)
(* ===================================================================== *)

Lemma cell_text_rendered (c : cell) : cell_text (Some (cell_text c)) = cell_text c.
Proof. now destruct c as [[|x s]|]. Qed.

Lemma replace_again (s : str) :
  Py.replace 10%N 32%N (Py.replace 10%N 32%N s) = Py.replace 10%N 32%N s.
Proof.
  unfold Py.replace. rewrite map_map. apply map_ext. intros c.
  destruct (N.eqb c 10) eqn:E; [reflexivity|]. now rewrite E.
Qed.

Lemma cell_text_some (s : str) : cell_text (Some s) = s.
Proof. now destruct s. Qed.

(** X11. Serializing is idempotent on the cells: the grid of the cells a
    table was rendered with gives the same fragment as the table itself. *)
Theorem table_to_markdown_rendered_grid (t : table) :
  table_to_markdown (rendered_grid t) = table_to_markdown t.
Proof.
  destruct t as [|[|c h] rows]; [reflexivity|reflexivity|].
  unfold rendered_grid.
  assert (Hh : header_cells (map Some (header_cells (c :: h))) = header_cells (c :: h)).
  { unfold header_cells. rewrite !map_map. apply map_ext, cell_text_rendered. }
  assert (Hs : separator_cells (map Some (header_cells (c :: h)))
               = separator_cells (c :: h)).
  { unfold separator_cells, header_cells. now rewrite !length_map. }
  assert (Hd : map data_cells (map (fun row => map Some (data_cells row)) rows)
               = map data_cells rows).
  { rewrite map_map. apply map_ext. intros row. unfold data_cells.
    rewrite !map_map. apply map_ext. intros x.
    now rewrite cell_text_some, replace_again. }
  change (map Some (header_cells (c :: h)))
    with (Some (cell_text c) :: map Some (header_cells h)) in *.
  unfold table_to_markdown, md_rows. now rewrite Hh, Hs, Hd.
Qed.

Lemma split_no_sep (sep : char) (p : str) :
  ~ In sep p -> Py.split sep p = [p].
Proof.
  induction p as [|c p IH]; intros H; cbn; [reflexivity|].
  destruct (N.eqb c sep) eqn:E.
  - apply N.eqb_eq in E. subst. contradiction H. now left.
  - rewrite IH; [reflexivity|]. intros Hin. apply H. now right.
Qed.

Lemma split_app_sep (sep : char) (p s : str) :
  ~ In sep p -> Py.split sep (p ++ sep :: s) = p :: Py.split sep s.
Proof.
  induction p as [|c p IH]; intros H; cbn [app Py.split].
  - now rewrite N.eqb_refl.
  - destruct (N.eqb c sep) eqn:E.
    + apply N.eqb_eq in E. subst. contradiction H. now left.
    + rewrite IH; [reflexivity|]. intros Hin. apply H. now right.
Qed.

(** Splitting undoes joining when no part holds the separator. *)
Lemma split_join (sep : char) (parts : list str) :
  parts <> [] -> Forall (fun p => ~ In sep p) parts ->
  Py.split sep (Py.join [sep] parts) = parts.
Proof.
  induction parts as [|p parts IH]; intros Hne H; [now contradiction Hne|].
  inversion H as [|? ? Hp Hparts]; subst.
  destruct parts as [|q parts].
  - cbn. now apply split_no_sep.
  - change (Py.join [sep] (p :: q :: parts))
      with (p ++ sep :: Py.join [sep] (q :: parts)).
    rewrite split_app_sep by exact Hp. f_equal. apply IH; [discriminate|exact Hparts].
Qed.

Lemma join_no_line_feed (sepa : str) (cells : list str) :
  ~ In 10%N sepa -> Forall (fun c => ~ In 10%N c) cells ->
  ~ In 10%N (Py.join sepa cells).
Proof.
  intros Hs H. induction H as [|c cells Hc Hcells IH]; cbn; [auto|].
  destruct cells as [|c' cells]; [exact Hc|].
  rewrite !in_app_iff. intros [?|[?|?]]; auto.
Qed.

Lemma render_row_no_line_feed (cells : list str) :
  Forall (fun c => ~ In 10%N c) cells -> ~ In 10%N (render_row cells).
Proof.
  intros H. unfold render_row. rewrite !in_app_iff.
  intros [Hin|[Hin|Hin]].
  - cbn in Hin. intuition discriminate.
  - revert Hin. apply join_no_line_feed; [|exact H].
    cbn. intuition discriminate.
  - cbn in Hin. intuition discriminate.
Qed.

(** X12. When no header cell holds a line feed, the lines of the fragment of
    a table are its rendered rows, one line for each: the header line, the
    separator line and one line for every data row. *)
Theorem table_fragment_lines (header : list cell) (rows : list (list cell)) :
  header <> [] ->
  Forall (fun c => ~ In 10%N (cell_text c)) header ->
  Py.split 10%N (table_to_markdown (header :: rows))
  = map render_row (md_rows header rows)
  /\ length (Py.split 10%N (table_to_markdown (header :: rows))) = 2 + length rows.
Proof.
  intros Hne Hh.
  assert (E : Py.split 10%N (table_to_markdown (header :: rows))
              = map render_row (md_rows header rows)).
  { destruct header as [|c h]; [now contradiction Hne|].
    unfold table_to_markdown. apply split_join; [discriminate|].
    apply Forall_forall. intros line Hline.
    apply in_map_iff in Hline as (cells & <- & Hcells).
    apply render_row_no_line_feed.
    destruct Hcells as [<-|[<-|Hcells]].
    - unfold header_cells. apply Forall_forall. intros x Hx.
      apply in_map_iff in Hx as (c0 & <- & Hc0).
      rewrite Forall_forall in Hh. now apply Hh.
    - unfold separator_cells. apply Forall_forall. intros x Hx.
      apply repeat_spec in Hx. subst. cbn. intuition discriminate.
    - apply in_map_iff in Hcells as (row & <- & _).
      apply data_cells_no_line_feed. }
  split; [exact E|]. rewrite E. unfold md_rows. cbn. now rewrite !length_map.
Qed.

Lemma table_fragment_lines_witness :
  Py.split 10%N (table_to_markdown [[Some (Py.lit "a"); None];
                                     [Some (Py.lit "c" ++ [10%N] ++ Py.lit "d")]])
  = map render_row (md_rows [Some (Py.lit "a"); None]
                            [[Some (Py.lit "c" ++ [10%N] ++ Py.lit "d")]])
  /\ length (Py.split 10%N
               (table_to_markdown [[Some (Py.lit "a"); None];
                                   [Some (Py.lit "c" ++ [10%N] ++ Py.lit "d")]]))
     = 2 + length [[Some (Py.lit "c" ++ [10%N] ++ Py.lit "d")]].
Proof.
  apply (table_fragment_lines [Some (Py.lit "a"); None]
           [[Some (Py.lit "c" ++ [10%N] ++ Py.lit "d")]]).
  - discriminate.
  - repeat constructor; cbn; intuition discriminate.
Defined.

(* ===================================================================== *)
(** * Reassembler: order, kinds and contents of blocks *)
(* ===================================================================== *)

Lemma filter_flush_not_paragraph (st : state) :
  filter not_paragraph (md_parts (flush st)) = filter not_paragraph (md_parts st).
Proof.
  unfold flush. destruct (paragraph_lines st); cbn; [reflexivity|].
  rewrite filter_app. cbn. now rewrite app_nil_r.
Qed.

Lemma run_lines_order (is_decimal : char -> bool) (body_size : option float)
      (lines : list line_info) : forall st,
  map fst (filter not_paragraph (md_parts (run_lines is_decimal body_size st lines)))
  = map fst (filter not_paragraph (md_parts st))
    ++ map class_kind
         (filter (fun c => negb (line_class_eqb c ParagraphText))
                 (map (classify_line is_decimal body_size) lines)).
Proof.
  unfold run_lines.
  induction lines as [|li lines IH]; intros st; cbn [fold_left map filter].
  - rewrite filter_flush_not_paragraph. now rewrite app_nil_r.
  - rewrite IH, step_classified.
    destruct (classify_line is_decimal body_size li);
      cbv zeta; cbn [line_class_eqb negb md_parts append_part map class_kind];
      rewrite ?filter_app, ?map_app, ?filter_flush_not_paragraph; cbn;
      rewrite <- ?app_assoc; reflexivity.
Qed.

(** X13. Blocks keep the order of the page: leaving the paragraphs aside,
    the kinds of the blocks of a page are those of its tables followed, line
    by line in order, by the kind of every line that is not paragraph text,
    so every heading, list item and emphasized line gives exactly one block
    of its kind, in its place. *)
Theorem blocks_follow_lines
  (is_decimal : char -> bool) (p : page) (body_size : option float) :
  map fst (filter not_paragraph (process_page is_decimal p body_size))
  = map fst (table_parts (extract_tables p))
    ++ map class_kind
         (filter (fun c => negb (line_class_eqb c ParagraphText))
                 (map (classify_line is_decimal body_size)
                      (extract_text_with_formatting p body_size))).
Proof.
  unfold process_page. cbv zeta. rewrite run_lines_order. f_equal.
  cbn [md_parts init_state]. f_equal.
  pose proof (table_parts_kind (extract_tables p)) as H.
  induction H as [|b l Hb _ IH]; cbn; [reflexivity|].
  unfold not_paragraph at 1. rewrite Hb. cbn. now rewrite IH.
Qed.

(** The average size of a line is undefined when no character of the line
    has a size. *)
Lemma assemble_line_no_size (line_chars : list pdf_char) (li : line_info) :
  Forall (fun c => truthy (c_size c) = false) line_chars ->
  assemble_line line_chars = Some li -> font_size li = None.
Proof.
  intros H. apply sizes_of_empty in H. unfold assemble_line. rewrite H.
  destruct (Py.strip _) as [|x xs]; [discriminate|]. now intros [= <-].
Qed.

(** X14. A page on which no character has a size (missing or zero) gets no
    heading block, whatever the body size. *)
Theorem no_size_no_heading
  (is_decimal : char -> bool) (p : page) (body_size : option float) :
  Forall (fun c => truthy (c_size c) = false) (chars p) ->
  Forall (fun b => fst b <> Heading) (process_page is_decimal p body_size).
Proof.
  intros Hsizes.
  assert (Hlines : forall li, In li (extract_text_with_formatting p body_size) ->
                              font_size li = None).
  { intros li Hli. unfold extract_text_with_formatting in Hli.
    destruct (extract_text p) as [|t0 ts]; [contradiction|].
    destruct (chars p) as [|c0 cs] eqn:E.
    - pose proof (plain_lines_unformatted (t0 :: ts)) as U.
      rewrite Forall_forall in U. now apply U.
    - apply In_filter_map in Hli as (line_chars & Hin & Hasm).
      apply (assemble_line_no_size line_chars); [|exact Hasm].
      unfold line_groups in Hin. apply in_map_iff in Hin as (kv & <- & Hkv).
      apply In_sorted in Hkv. apply Forall_forall. intros c Hc.
      apply In_sorted in Hc. rewrite Forall_forall in Hsizes.
      apply Hsizes. exact (char_lines_incl _ _ _ Hkv Hc). }
  apply Forall_forall. intros b Hb.
  unfold process_page in Hb. cbv zeta in Hb.
  apply run_lines_kinds in Hb as [Hb|[->|(li & Hli & ->)]].
  - pose proof (table_parts_kind (extract_tables p)) as T.
    rewrite Forall_forall in T. rewrite (T b Hb). discriminate.
  - discriminate.
  - unfold classify_line. rewrite (Hlines li Hli), get_heading_level_undefined.
    destruct (is_bullet_list (text li)); [discriminate|].
    destruct (is_numbered_list is_decimal (text li)); [discriminate|].
    destruct (is_bold li && (length (text li) <? 100)); discriminate.
Qed.

Lemma no_size_no_heading_witness :
  Forall (fun b => fst b <> Heading)
         (process_page Config.basic_latin_digit unsized_page (Some 1%float)).
Proof.
  apply (no_size_no_heading Config.basic_latin_digit unsized_page (Some 1%float)).
  repeat constructor.
Defined.

Lemma join_not_empty (sepa : str) (ls : list str) :
  ls <> [] -> Forall (fun l => l <> []) ls -> Py.join sepa ls <> [].
Proof.
  intros Hne H. destruct H as [|l ls Hl Hls]; [now contradiction Hne|].
  destruct ls as [|l' ls]; cbn; [exact Hl|].
  destruct l; [now contradiction Hl|discriminate].
Qed.

Lemma table_parts_not_empty (tables : list table) :
  Forall (fun b => snd b <> []) (table_parts tables).
Proof.
  unfold table_parts. apply filter_map_Forall. intros t b.
  destruct (table_to_markdown t); [discriminate|]. intros [= <-]. discriminate.
Qed.

Lemma app3_not_empty (a b c : str) : b <> [] -> a ++ b ++ c <> [].
Proof.
  intros Hb. destruct a; [|discriminate]. destruct b; [now contradiction Hb|discriminate].
Qed.

Lemma flush_not_empty (st : state) :
  Forall (fun l => l <> []) (paragraph_lines st) ->
  Forall (fun b => snd b <> []) (md_parts st) ->
  Forall (fun b => snd b <> []) (md_parts (flush st)).
Proof.
  intros Hp Hm. unfold flush.
  destruct (paragraph_lines st) as [|l ls] eqn:E; [exact Hm|]. cbn [md_parts].
  apply Forall_app. split; [exact Hm|]. constructor; [|constructor].
  cbn [snd]. apply join_not_empty; [discriminate|exact Hp].
Qed.

Lemma step_not_empty (is_decimal : char -> bool) (body_size : option float)
      (st : state) (li : line_info) :
  text li <> [] ->
  Forall (fun l => l <> []) (paragraph_lines st) ->
  Forall (fun b => snd b <> []) (md_parts st) ->
  Forall (fun l => l <> []) (paragraph_lines (step is_decimal body_size st li))
  /\ Forall (fun b => snd b <> []) (md_parts (step is_decimal body_size st li)).
Proof.
  intros Hli Hp Hm. pose proof (flush_not_empty st Hp Hm) as Hf.
  assert (Happ : forall b : part, snd b <> [] ->
                   Forall (fun b => snd b <> []) (md_parts (flush st) ++ [b])).
  { intros b Hb. apply Forall_app. split; [exact Hf|]. now repeat constructor. }
  rewrite step_classified.
  destruct (classify_line is_decimal body_size li); cbv zeta;
    cbn [paragraph_lines md_parts append_part]; rewrite ?flush_paragraph_lines.
  - split; [constructor|]. apply Happ. unfold heading_part. cbn [snd].
    apply app3_not_empty. discriminate.
  - split; [constructor|]. apply Happ. unfold bullet_part. cbn [snd].
    apply (app3_not_empty []). discriminate.
  - split; [constructor|]. apply Happ. unfold numbered_part. cbn [snd].
    apply app3_not_empty. discriminate.
  - split; [constructor|]. apply Happ. unfold bold_part. cbn [snd].
    apply (app3_not_empty []). discriminate.
  - split; [|exact Hm]. apply Forall_app. split; [exact Hp|]. now repeat constructor.
Qed.

Lemma fold_step_not_empty (is_decimal : char -> bool) (body_size : option float)
      (lines : list line_info) : forall st,
  Forall (fun li => text li <> []) lines ->
  Forall (fun l => l <> []) (paragraph_lines st) ->
  Forall (fun b => snd b <> []) (md_parts st) ->
  Forall (fun l => l <> []) (paragraph_lines (fold_left (step is_decimal body_size) lines st))
  /\ Forall (fun b => snd b <> []) (md_parts (fold_left (step is_decimal body_size) lines st)).
Proof.
  induction lines as [|li lines IH]; intros st Hl Hp Hm; cbn [fold_left]; [auto|].
  inversion Hl as [|? ? Hli Hl']; subst.
  destruct (step_not_empty is_decimal body_size st li Hli Hp Hm) as [Hp' Hm'].
  now apply IH.
Qed.

Lemma extracted_text_not_empty (p : page) (body_size : option float) :
  Forall (fun li => text li <> []) (extract_text_with_formatting p body_size).
Proof.
  unfold extract_text_with_formatting.
  destruct (extract_text p) as [|t0 ts]; [constructor|].
  destruct (chars p) as [|c0 cs].
  - apply filter_map_Forall. intros line li.
    destruct (Py.strip line) as [|x xs]; [discriminate|]. intros [= <-]. discriminate.
  - apply filter_map_Forall. intros line_chars li. unfold assemble_line.
    destruct (Py.strip _) as [|x xs]; [discriminate|]. intros [= <-]. discriminate.
Qed.

Lemma block_contents_nonempty_parts
  (is_decimal : char -> bool) (p : page) (body_size : option float) :
  Forall (fun b => snd b <> []) (process_page is_decimal p body_size).
Proof.
  unfold process_page, run_lines. cbv zeta.
  destruct (fold_step_not_empty is_decimal body_size
              (extract_text_with_formatting p body_size)
              (init_state (table_parts (extract_tables p)))) as [Hp Hm].
  - apply extracted_text_not_empty.
  - constructor.
  - apply table_parts_not_empty.
  - now apply flush_not_empty.
Qed.

(** X15. No block of a page has an empty content: the table fragments, the
    headings, the list items, the emphasized fragments and the paragraphs
    all hold at least one character. *)
Theorem block_contents_not_empty
  (is_decimal : char -> bool) (p : page) (body_size : option float) :
  Forall (fun b => snd b <> []) (process_page is_decimal p body_size).
Proof. apply block_contents_nonempty_parts. Qed.

(* ===================================================================== *)
(** * Document composer: lines of a page and of a document *)
(* ===================================================================== *)

Lemma fold_emit_output (page_parts : list part) : forall prev md_output,
  fold_left emit page_parts (prev, md_output)
  = (fst (fold_left emit page_parts (prev, [])),
     md_output ++ snd (fold_left emit page_parts (prev, []))).
Proof.
  induction page_parts as [|[k c] ps IH]; intros prev md_output; cbn [fold_left].
  - cbn. now rewrite app_nil_r.
  - unfold emit at 2 4 6.
    rewrite IH. rewrite (IH _ (_ ++ [c])).
    cbn [fst snd]. f_equal.
    destruct prev as [prev|]; [destruct (negb _ && _)|]; cbn [app];
      now rewrite <- ?app_assoc.
Qed.



Lemma compose_pages (is_decimal : char -> bool) (body_size : float) (n : nat)
      (pages : list page) : forall (page_num : nat) (md_output : list str),
  page_num + length pages = S n ->
  compose is_decimal body_size n page_num pages md_output
  = md_output
    ++ between_pages
         (map (fun p => page_lines (process_page is_decimal p (Some body_size))) pages).
Proof.
  induction pages as [|p pages IH]; intros page_num md_output Hn.
  - cbn. now rewrite app_nil_r.
  - cbn [compose length] in *. rewrite fold_emit_output. cbn [snd].
    fold (page_lines (process_page is_decimal p (Some body_size))).
    rewrite IH by lia.
    destruct pages as [|q pages].
    + cbn [length] in Hn.
      replace (page_num <? n) with false by (symmetry; apply Nat.ltb_ge; lia).
      cbn. now rewrite !app_nil_r.
    + cbn [length] in Hn.
      replace (page_num <? n) with true by (symmetry; apply Nat.ltb_lt; lia).
      cbn [map between_pages]. now rewrite <- !app_assoc.
Qed.

(** X16. The output of a document is made page by page: it is the lines of
    each page, computed from that page and the body size alone, with one
    empty line between two pages, joined by line feeds.  Nothing of a page
    (the kind of its last block, its numbering) reaches the next one. *)
Theorem convert_page_by_page (is_decimal : char -> bool) (pages : list page) :
  convert_pdf_to_markdown is_decimal pages
  = Py.join [10%N]
      (between_pages
         (map (fun p => page_lines
                          (process_page is_decimal p (Some (estimate_body_size pages))))
              pages)).
Proof.
  unfold convert_pdf_to_markdown. now rewrite compose_pages.
Qed.




(* ===================================================================== *)
(** * Numbered items and the text of blocks *)
(* ===================================================================== *)

(** [cls*] can always give back what it took: it matches wherever what
    follows it matches. *)
Lemma star_backtrack (cls : char -> bool) (rest : str -> option str) (s : str) :
  rest s <> None -> Re.star cls rest s <> None.
Proof.
  intros H. destruct s as [|c s]; cbn; [exact H|].
  destruct (cls c); [|exact H].
  destruct (Re.star cls rest s); [discriminate|exact H].
Qed.

(** [cls*] over a run of the class, when what follows matches after the
    run. *)
Lemma star_run (cls : char -> bool) (rest : str -> option str) (run s : str) :
  Forall (fun c => cls c = true) run ->
  rest s <> None -> Re.star cls rest (run ++ s) <> None.
Proof.
  intros Hrun Hs. induction Hrun as [|c run Hc _ IH]; cbn [app].
  - now apply star_backtrack.
  - cbn. rewrite Hc. destruct (Re.star cls rest (run ++ s)); [discriminate|].
    now contradiction IH.
Qed.

Lemma matches_some (p : Re.pattern) (s : str) :
  Re.match_here p s <> None -> Re.matches p s = true.
Proof. unfold Re.matches. now destruct (Re.match_here p s). Qed.

Lemma star_end (cls : char -> bool) (s : str) :
  Re.star cls (Re.match_here []) s <> None.
Proof. apply star_total. discriminate. Qed.

(** X18. A line is a numbered item whenever, after optional white space, it
    begins with digits followed by ".", ")" or the full-width ")", with digits
    between parentheses, or with a circled numeral; what comes after plays no
    part.  This holds for every set of digits [\d] may stand for. *)
Theorem numeral_prefix_is_numbered
  (is_decimal : char -> bool) (spaces digits rest : str) (d c : char) :
  Forall (fun x => Py.is_space x = true) spaces ->
  is_decimal d = true ->
  Forall (fun x => is_decimal x = true) digits ->
  (Config.numeral_closer c = true ->
   is_numbered_list is_decimal (spaces ++ d :: digits ++ c :: rest) = true)
  /\ (forall o : char,
        Config.paren_open o = true -> Config.paren_close c = true ->
        is_numbered_list is_decimal (spaces ++ o :: d :: digits ++ c :: rest) = true)
  /\ (Config.circled_numeral c = true ->
      is_numbered_list is_decimal (spaces ++ c :: rest) = true).
Proof.
  intros Hsp Hd Hds.
  unfold is_numbered_list, Config.numbered_patterns. cbn [existsb].
  split; [|split].
  - intros Hc. apply orb_true_iff. left. apply matches_some.
    cbn [Re.match_here]. apply star_run; [exact Hsp|].
    rewrite Hd. apply star_run; [exact Hds|].
    cbn [Re.match_here]. rewrite Hc. apply star_end.
  - intros o Ho Hc. apply orb_true_iff. right. apply orb_true_iff. left.
    apply matches_some.
    cbn [Re.match_here]. apply star_run; [exact Hsp|].
    rewrite Ho, Hd. apply star_run; [exact Hds|].
    cbn [Re.match_here]. rewrite Hc. apply star_end.
  - intros Hc. apply orb_true_iff. right. apply orb_true_iff. right.
    apply orb_true_iff. left. apply matches_some.
    cbn [Re.match_here]. apply star_run; [exact Hsp|].
    rewrite Hc. apply star_end.
Qed.

Lemma numeral_prefix_is_numbered_witness :
  is_numbered_list Config.basic_latin_digit (Py.lit " 12) x") = true.
Proof.
  apply (numeral_prefix_is_numbered Config.basic_latin_digit
           (Py.lit " ") (Py.lit "2") (Py.lit " x") 49%N 41%N);
    try reflexivity; repeat constructor.
Defined.

Lemma join_contains (sepa x : str) (ls : list str) :
  In x ls -> exists a c, Py.join sepa ls = a ++ x ++ c.
Proof.
  induction ls as [|l ls IH]; [contradiction|].
  intros [->|H].
  - destruct ls as [|l' ls]; cbn.
    + exists [], []. now rewrite app_nil_r.
    + now exists [], (sepa ++ Py.join sepa (l' :: ls)).
  - destruct (IH H) as (a & c & E).
    destruct ls as [|l' ls]; [contradiction|].
    change (Py.join sepa (l :: l' :: ls)) with (l ++ sepa ++ Py.join sepa (l' :: ls)).
    rewrite E. exists (l ++ sepa ++ a), c. now rewrite <- !app_assoc.
Qed.

Lemma flush_keeps (st : state) (b : part) :
  In b (md_parts st) -> In b (md_parts (flush st)).
Proof.
  unfold flush. destruct (paragraph_lines st); cbn; [auto|].
  intros H. apply in_app_iff. now left.
Qed.

Lemma step_keeps (is_decimal : char -> bool) (body_size : option float)
      (st : state) (li : line_info) (b : part) :
  In b (md_parts st) -> In b (md_parts (step is_decimal body_size st li)).
Proof.
  intros H. rewrite step_classified.
  destruct (classify_line is_decimal body_size li); cbv zeta;
    cbn [md_parts append_part]; try exact H;
    apply in_app_iff; left; now apply flush_keeps.
Qed.

Lemma flush_shown (st : state) (k : part_type) (x : str) :
  shown st k x ->
  exists b a c, In b (md_parts (flush st)) /\ fst b = k /\ snd b = a ++ x ++ c.
Proof.
  intros [(b & a & c & Hb & Hk & E)|(-> & Hx)].
  - exists b, a, c. split; [now apply flush_keeps|auto].
  - unfold flush. destruct (paragraph_lines st) as [|l ls] eqn:El; [contradiction|].
    destruct (join_contains (Py.lit " ") x (l :: ls) Hx) as (a & c & E).
    exists (Paragraph, Py.join (Py.lit " ") (l :: ls)), a, c. cbn [md_parts].
    split; [apply in_app_iff; right; now left|auto].
Qed.

Lemma step_shown (is_decimal : char -> bool) (body_size : option float)
      (st : state) (li : line_info) (k : part_type) (x : str) :
  shown st k x -> shown (step is_decimal body_size st li) k x.
Proof.
  intros H. pose proof (flush_shown st k x H) as (b & a & c & Hb & Hk & E).
  rewrite step_classified.
  destruct (classify_line is_decimal body_size li); cbv zeta;
    try (left; exists b, a, c; cbn [md_parts append_part];
         split; [apply in_app_iff; now left|auto]).
  destruct H as [(b' & a' & c' & Hb' & Hk' & E')|(-> & Hx)].
  - left. now exists b', a', c'.
  - right. split; [reflexivity|]. cbn. apply in_app_iff. now left.
Qed.

Lemma step_shows (is_decimal : char -> bool) (body_size : option float)
      (st : state) (li : line_info) :
  shown (step is_decimal body_size st li)
        (class_kind (classify_line is_decimal body_size li))
        (shown_text is_decimal body_size li).
Proof.
  unfold shown_text. rewrite step_classified.
  destruct (classify_line is_decimal body_size li); cbv zeta; cbn [class_kind].
  - left. exists (heading_part level (text li)), (repeat 35%N level ++ Py.lit " "), [].
    cbn [md_parts append_part]. split; [apply in_app_iff; right; now left|].
    split; [reflexivity|]. unfold heading_part. cbn [snd].
    now rewrite app_nil_r, <- app_assoc.
  - left. exists (bullet_part (text li)), (Py.lit "- "), [].
    cbn [md_parts append_part]. split; [apply in_app_iff; right; now left|].
    split; [reflexivity|]. unfold bullet_part. cbn [snd]. now rewrite app_nil_r.
  - left.
    set (n := S (if is_numbered (current_list_type st) then numbered_counter st else 0)).
    exists (numbered_part is_decimal n (text li)), (Py.of_nat n ++ Py.lit ". "), [].
    cbn [md_parts append_part]. split; [apply in_app_iff; right; now left|].
    split; [reflexivity|]. unfold numbered_part. cbn [snd].
    now rewrite app_nil_r, <- app_assoc.
  - left. exists (bold_part (text li)), (Py.lit "**"), (Py.lit "**").
    cbn [md_parts append_part]. split; [apply in_app_iff; right; now left|].
    split; reflexivity.
  - right. split; [reflexivity|]. cbn. apply in_app_iff. right. now left.
Qed.

Lemma fold_step_shown (is_decimal : char -> bool) (body_size : option float)
      (lines : list line_info) : forall st k x,
  shown st k x -> shown (fold_left (step is_decimal body_size) lines st) k x.
Proof.
  induction lines as [|li lines IH]; intros st k x H; cbn [fold_left]; [exact H|].
  apply IH. now apply step_shown.
Qed.

(** X19. No line of a page is dropped: for every line there is a block of
    the kind of the line whose content holds the text the line shows (the
    cleaned text for a list item, the text of the line otherwise). *)
Theorem every_line_has_a_block
  (is_decimal : char -> bool) (p : page) (body_size : option float) (li : line_info) :
  In li (extract_text_with_formatting p body_size) ->
  exists (b : part) (before after : str),
    In b (process_page is_decimal p body_size)
    /\ fst b = class_kind (classify_line is_decimal body_size li)
    /\ snd b = before ++ shown_text is_decimal body_size li ++ after.
Proof.
  intros Hli. unfold process_page, run_lines. cbv zeta.
  apply flush_shown.
  apply in_split in Hli as (l1 & l2 & ->).
  rewrite fold_left_app. cbn [fold_left].
  apply fold_step_shown, step_shows.
Qed.

Lemma every_line_has_a_block_witness :
  exists (b : part) (before after : str),
    In b (process_page Config.basic_latin_digit numbered_page (Some 12%float))
    /\ fst b = class_kind (classify_line Config.basic_latin_digit (Some 12%float)
                                         (plain_line (Py.lit "3. b")))
    /\ snd b = before
               ++ shown_text Config.basic_latin_digit (Some 12%float)
                             (plain_line (Py.lit "3. b"))
               ++ after.
Proof.
  apply (every_line_has_a_block Config.basic_latin_digit numbered_page
           (Some 12%float) (plain_line (Py.lit "3. b"))).
  right. right. left. reflexivity.
Defined.

Lemma fold_step_count (is_decimal : char -> bool) (body_size : option float)
      (lines : list line_info) : forall st,
  length (md_parts (flush (fold_left (step is_decimal body_size) lines st)))
  <= length (md_parts (flush st)) + length lines.
Proof.
  assert (Hflush : forall st, length (md_parts (flush st)) <= S (length (md_parts st))).
  { intros st. unfold flush. destruct (paragraph_lines st); cbn; [lia|].
    rewrite length_app. cbn. lia. }
  assert (Hff : forall st, flush (flush st) = flush st)
    by (intros st; apply flush_empty, flush_paragraph_lines).
  induction lines as [|li lines IH]; intros st; cbn [fold_left length]; [lia|].
  etransitivity; [apply IH|].
  enough (length (md_parts (flush (step is_decimal body_size st li)))
          <= S (length (md_parts (flush st)))) by lia.
  rewrite step_classified.
  destruct (classify_line is_decimal body_size li); cbv zeta.
  1-4: rewrite flush_empty by (cbn; apply flush_paragraph_lines);
       cbn [md_parts append_part]; rewrite length_app; cbn; lia.
  unfold flush. cbn [paragraph_lines md_parts].
  destruct (paragraph_lines st) as [|l ls]; cbn; rewrite ?length_app; cbn; lia.
Qed.

(** X20. A page never has more blocks than it has tables and lines. *)
Theorem block_count_bound
  (is_decimal : char -> bool) (p : page) (body_size : option float) :
  length (process_page is_decimal p body_size)
  <= length (extract_tables p) + length (extract_text_with_formatting p body_size).
Proof.
  unfold process_page, run_lines. cbv zeta.
  etransitivity; [apply fold_step_count|].
  cbn [flush init_state paragraph_lines md_parts].
  assert (H : length (table_parts (extract_tables p)) <= length (extract_tables p)).
  { unfold table_parts. induction (extract_tables p) as [|t ts IH]; cbn; [lia|].
    destruct (table_to_markdown t); cbn; lia. }
  lia.
Qed.
